(** * Command routing and execution dispatch of the ipfs library front end

    A shallow embedding of [lib/command.go]: the capability lookup
    [commandDetails], the dispatcher [makeExecutor] with its helpers
    [apiAddrOption] and [resolveAddr], and the argument rewriting done by
    [command] before the parser runs.

    Go values are embedded as follows.
    - [string] is [string]; a slice [[]string] is [list string], read with
      stdpp's lookup [l !! i] and written with [<[i:=x]> l].
    - [map[string]T] is [gmap string T].
    - A nil-able interface value ([ma.Multiaddr], [error]) is an [option].
    - A Go result pair [(v, err)] of a collaborator is a Rocq pair of options,
      so that nothing is assumed about the collaborator beyond its type.
    - Calls that leave the file (multiaddress library, repository files,
      DNS) are recorded in a call log; a function body is written in the
      monad [M], which carries that log and the early [return]s.

    The environment builder of [command] - the closures [buildEnv] and
    [ConstructNode] with [checkDebug], [getRepoPath] and [loadPlugins] -
    and [writeHeapProfileToFile] are embedded the same way over the
    process state [Proc], which adds the global [u.Debug] to the events. *)

From stdpp Require Import base strings list gmap.
From Stdlib Require Import ZArith Lia Sorted.

Set Default Proof Using "Type".

Local Open Scope string_scope.
Local Open Scope list_scope.

(** ** Go runtime values *)

(** A Go [error]. [repo.ErrApiNotRunning] is a package-level sentinel
    compared by identity; every other error is identified by its message. *)
Inductive error : Type :=
| ErrApiNotRunning
| errorString (msg : string).

(** [errors.New]. *)
Definition errors_New (msg : string) : error := errorString msg.

(** [strings.Join(elems, sep)]. *)
Definition strings_Join (elems : list string) (sep : string) : string :=
  String.concat sep elems.

(** The [%v] verb of [fmt] on a [[]string]: the elements separated by one
    space, between square brackets. *)
Definition fmt_v (l : list string) : string :=
  "[" +:+ strings_Join l " " +:+ "]".

(** A multiaddress, identified by its canonical text form, which is what
    [String()] (and so the [%s] verb) prints. *)
Record Multiaddr : Type := mkMultiaddr { ma_String : string }.

(** [context.Context], reduced to the time left until its deadline in
    nanoseconds ([None]: no deadline). *)
Record context_Context : Type := mkCtx { ctx_remaining : option Z }.

Definition Second : Z := 1000000000.

(** [context.WithTimeout(parent, d)]: the earlier of the parent's deadline
    and [d] from now. *)
Definition WithTimeout (parent : context_Context) (d : Z) : context_Context :=
  match ctx_remaining parent with
  | None => mkCtx (Some d)
  | Some r => mkCtx (Some (Z.min r d))
  end.

(** ** Data model *)

(** Modelled from the spec: the declaration of [cmdDetails] is not part of
    the source file; these are the fields [command.go] reads and writes.
    The spec's fourth flag, [external], is read from the command itself
    ([req.Command.External]). *)
Record cmdDetails : Type := mkCmdDetails {
  cannotRunOnClient : bool;
  cannotRunOnDaemon : bool;
  doesNotUseRepo : bool
}.

(** [*cmds.Command]: a pointer, compared by address, to a command of which
    the dispatcher reads the [External] field only. *)
Record cmds_Command : Type := mkCommand {
  cmd_addr : N;
  External : bool
}.

(** [p != q] on two command pointers. *)
Definition ptr_neq (p q : cmds_Command) : bool :=
  negb (cmd_addr p =? cmd_addr q)%N.

(** A value stored in [req.Options] (a [map[string]interface{}]). *)
Inductive optValue : Type :=
| VString (s : string)
| VBool (b : bool)
| VInt (n : Z).

(** [cmds.Request]. *)
Record cmds_Request : Type := mkRequest {
  Context : context_Context;
  Root : cmds_Command;
  Command : cmds_Command;
  Path : list string;
  Options : gmap string optValue
}.

(** [oldcmds.Context], the environment handed to [makeExecutor]. *)
Record oldcmds_Context : Type := mkEnv { ConfigRoot : string }.

(** The arguments of a [net.Dial(network, address)] call. *)
Record net_Dial : Type := mkDial {
  dial_network : string;
  dial_address : string
}.

(** [http.Client] over an [http.Transport] whose [DialContext] is given;
    its two string arguments are the network and the host:port chosen by
    the HTTP layer, its value the dial it performs. *)
Record http_Client : Type := mkHTTPClient {
  DialContext : string -> string -> net_Dial
}.

(** [cmds.Executor]: the in-process executor built by [cmds.NewExecutor],
    or the HTTP client built by [cmdhttp.NewClient] from a host and its
    options, in the order they were appended. *)
Inductive Executor : Type :=
| NewExecutor (root : cmds_Command)
| NewClient (host : string) (opts : list ClientOpt)
with ClientOpt : Type :=
| ClientWithAPIPrefix (prefix : string)
| ClientWithFallback (exe : Executor)
| ClientWithHTTPClient (c : http_Client).

(** [x != nil] on a nil-able value. *)
Definition notNil {A} (x : option A) : bool :=
  match x with Some _ => true | None => false end.

(** The [%s] verb of [fmt] on a [ma.Multiaddr]. *)
Definition fmt_s (a : option Multiaddr) : string :=
  match a with
  | Some a => ma_String a
  | None => "%!s(<nil>)"
  end.

(** ** Call log and function bodies *)

(** One entry per call that leaves the file. *)
Inductive Call : Type :=
| CallNewMultiaddr (s : string)
| CallAPIAddr (repoPath : string)
| CallResolve (ctx : context_Context) (addr : Multiaddr)
| CallDialArgs (addr : option Multiaddr)
| CallIsInitialized (repoPath : string).

(** What a call of a Go function yields: the calls it made, in order, and
    the value it returned. *)
Definition Fn (R : Type) : Type := (list Call * R)%type.

Definition calls {R} (f : Fn R) : list Call := fst f.
Definition returned {R} (f : Fn R) : R := snd f.

(** A statement sequence inside a function returning [R]: from the calls
    made so far to the calls made after it, with either the value of an
    early [return] or the value the sequence binds. *)
Definition M (R A : Type) : Type := list Call → list Call * (R + A).

Definition ret {R A} (a : A) : M R A := fun log => (log, inr a).

Definition Return {R A} (r : R) : M R A := fun log => (log, inl r).

Definition bind {R A B} (m : M R A) (k : A → M R B) : M R B :=
  fun log =>
    match m log with
    | (log, inl r) => (log, inl r)
    | (log, inr a) => k a log
    end.

(** A call of a collaborator, answered with [v]. *)
Definition extern {R A} (c : Call) (v : A) : M R A :=
  fun log => (log ++ [c], inr v).

(** A call of a function of this file. *)
Definition invoke {R A} (f : Fn A) : M R A :=
  fun log => let '(made, a) := f in (log ++ made, inr a).

(** A whole function body, started on an empty log. Every path of the
    bodies modelled here ends in [Return]. *)
Definition func {R} (body : M R R) : Fn R :=
  let '(log, r) := body [] in
  (log, match r with inl r => r | inr r => r end).

Notation "'do' x <- c1 ; c2" :=
  (bind c1 (fun x => c2))
    (at level 10, x pattern, c1 at level 100, c2 at level 200).

(** ** An example installation

    The registry, the daemon command and the collaborators are declared
    outside the source file. The values below fix one of each, on which
    the theorems are exercised. The registry has the shape of the table of
    the command-line front end, plus one entry, [legacy], that carries both
    prohibitions. *)
Module Example.

Definition details (client daemon norepo : bool) : cmdDetails :=
  {| cannotRunOnClient := client; cannotRunOnDaemon := daemon;
     doesNotUseRepo := norepo |}.

Definition cmdDetailsMap : gmap string cmdDetails :=
  <["init" := details false true true]>
  (<["daemon" := details false true false]>
  (<["commands" := details false false true]>
  (<["version" := details false false true]>
  (<["log" := details true false false]>
  (<["diag/cmds" := details true false false]>
  (<["repo/fsck" := details false true false]>
  (<["config/edit" := details false true true]>
  (<["legacy" := details true true false]> ∅)))))))).

Definition rootCmd : cmds_Command := {| cmd_addr := 1; External := false |}.
Definition daemonCmd : cmds_Command := {| cmd_addr := 2; External := false |}.
Definition otherCmd : cmds_Command := {| cmd_addr := 3; External := false |}.

Definition ApiOption : string := "api".
Definition APIPath : string := "/api/v0".

Definition tcpAddr : Multiaddr := mkMultiaddr "/ip4/127.0.0.1/tcp/5001".
Definition unixAddr : Multiaddr := mkMultiaddr "/unix/var/run/ipfs.sock".
Definition udpAddr : Multiaddr := mkMultiaddr "/ip4/127.0.0.1/udp/5001".
Definition dnsAddr : Multiaddr := mkMultiaddr "/dns4/node.example/tcp/5001".
Definition deadAddr : Multiaddr := mkMultiaddr "/dns4/nowhere.example/tcp/5001".

(** Accepts the text forms that start with a slash. *)
Definition NewMultiaddr (s : string) : option Multiaddr * option error :=
  if String.prefix "/" s then (Some (mkMultiaddr s), None)
  else (None, Some (errorString "invalid multiaddr, must begin with /")).

(** Four repositories: one with a daemon on TCP, one with a daemon on a
    local socket, one whose record cannot be read, and any other, without
    a daemon. *)
Definition APIAddr (repoPath : string) : option Multiaddr * option error :=
  if String.eqb repoPath "/repo/tcp" then (Some tcpAddr, None)
  else if String.eqb repoPath "/repo/unix" then (Some unixAddr, None)
  else if String.eqb repoPath "/repo/locked"
  then (None, Some (errorString "open /repo/locked/api: permission denied"))
  else (None, Some ErrApiNotRunning).

Definition IsInitialized (repoPath : string) : bool :=
  negb (String.eqb repoPath "/repo/none").

Definition Resolve (ctx : context_Context) (addr : Multiaddr)
  : list Multiaddr * option error :=
  if String.eqb (ma_String addr) (ma_String dnsAddr)
  then ([tcpAddr; mkMultiaddr "/ip4/10.0.0.7/tcp/5001"], None)
  else if String.eqb (ma_String addr) (ma_String deadAddr)
  then ([], None)
  else if String.eqb (ma_String addr) "/dns4/broken.example/tcp/5001"
  then ([], Some (errorString "lookup broken.example: server misbehaving"))
  else ([addr], None).

Definition DialArgs (addr : option Multiaddr) : string * string * option error :=
  match addr with
  | None => ("", "", Some (errorString "nil multiaddr"))
  | Some a =>
      if String.eqb (ma_String a) (ma_String tcpAddr)
      then ("tcp4", "127.0.0.1:5001", None)
      else if String.eqb (ma_String a) (ma_String unixAddr)
      then ("unix", "/var/run/ipfs.sock", None)
      else if String.eqb (ma_String a) (ma_String udpAddr)
      then ("udp4", "127.0.0.1:5001", None)
      else ("", "", Some (errorString "not a dialable multiaddr"))
  end.

Definition ctx : context_Context := mkCtx None.

(** A request for [cmd] at [path], with [--api api] when [api] is given. *)
Definition request (cmd : cmds_Command) (path : list string)
    (api : option string) : cmds_Request :=
  {| Context := ctx; Root := rootCmd; Command := cmd; Path := path;
     Options := match api with
                | Some a => <[ApiOption := VString a]> ∅
                | None => ∅
                end |}.

Definition env (repoPath : string) : oldcmds_Context :=
  {| ConfigRoot := repoPath |}.

End Example.

(** ** Argument rewriting *)

(** The rewriting of [args] in [command], lines 87-111: the slice handed to
    [cli.Run], or [None] when an index expression is out of range (a
    run-time panic). *)
Definition command_args (args : list string) : option (list string) :=
  args ← (if (1 <? length args)%nat then
            a1 ← args !! 1%nat;
            let args := if String.eqb a1 "--version"
                        then <[1%nat := "version"]> args else args in
            a1 ← args !! 1%nat;
            if String.eqb a1 "help" then
              if (2 <? length args)%nat then
                let args := take 1 args ++ drop 2 args in
                a1 ← args !! 1%nat;
                Some (if negb (String.eqb a1 "--help")
                      then args ++ ["--help"] else args)
              else Some (<[1%nat := "--help"]> args)
            else Some args
          else Some args);
  if (0 <? length args)%nat then Some (<[0%nat := "ipfs"]> args) else None.

(** ** The environment builder: values, effects, process state *)

(** [*loader.PluginLoader], [*os.File], [repo.Repo] and [*core.IpfsNode]:
    handles, of which the file only passes the pointers around. *)
Record PluginLoader : Type := mkLoader { loader_id : N }.
Record os_File : Type := mkFile { file_fd : N }.
Record repo_Repo : Type := mkRepo { repo_id : N }.
Record IpfsNode : Type := mkNode { node_id : N }.

(** The [*oldcmds.Context] built by [buildEnv], lines 130-156. [env_base]
    holds [ConfigRoot]; [Plugins] is the loader; the closure stored in
    [ConstructNode] is given by the variables it captures, [req] and [ctx]
    (and [repoPath], which is [ConfigRoot]). [LoadConfig] is the function
    [loadConfig] and [ReqLog] a fresh log for every environment. *)
Record builtEnv : Type := mkBuiltEnv {
  env_base : oldcmds_Context;
  Plugins : option PluginLoader;
  captured_req : option cmds_Request;
  captured_ctx : context_Context
}.

(** What the environment builder and its helpers do outside the file. *)
Inductive Event : Type :=
| EvSetDebugLogging
| EvBestKnownPath
| EvNewPluginLoader (repoPath : string)
| EvInitialize (plugins : option PluginLoader)
| EvInject (plugins : option PluginLoader)
| EvDebugf (msg : string)
| EvSendEnv (env : option builtEnv)
| EvCreate (name : string)
| EvWriteHeapProfile (f : option os_File)
| EvClose (f : option os_File)
| EvOpen (repoPath : string)
| EvNewNode (ctx : context_Context) (r : option repo_Repo).

(** The state these functions work on: the global [u.Debug] and the
    events so far, [envCh <- v] being the event [EvSendEnv v]. *)
Record Proc : Type := mkProc {
  u_Debug : bool;
  events : list Event
}.

(** A call of a function returning [R], as a state transformer. *)
Definition PFn (R : Type) : Type := Proc → Proc * R.

(** A statement sequence inside such a function, with early [return]. *)
Definition P (R A : Type) : Type := Proc → Proc * (R + A).

Definition pret {R A} (a : A) : P R A := fun st => (st, inr a).

Definition pReturn {R A} (r : R) : P R A := fun st => (st, inl r).

Definition pbind {R A B} (m : P R A) (k : A → P R B) : P R B :=
  fun st =>
    match m st with
    | (st, inl r) => (st, inl r)
    | (st, inr a) => k a st
    end.

(** An effect outside the file, answered with [v]. *)
Definition emit {R A} (e : Event) (v : A) : P R A :=
  fun st => ({| u_Debug := u_Debug st; events := events st ++ [e] |}, inr v).

(** The assignment [u.Debug = b]. *)
Definition set_u_Debug {R} (b : bool) : P R unit :=
  fun st => ({| u_Debug := b; events := events st |}, inr tt).

(** A call of a function of this file. *)
Definition pinvoke {R A} (f : PFn A) : P R A :=
  fun st => let '(st, a) := f st in (st, inr a).

(** A whole function body. *)
Definition pfunc {R} (body : P R R) : PFn R :=
  fun st =>
    let '(st, r) := body st in
    (st, match r with inl r => r | inr r => r end).

Notation "'act' x <- c1 ; c2" :=
  (pbind c1 (fun x => c2))
    (at level 10, x pattern, c1 at level 100, c2 at level 200).

(** The [Error()] text of an error, given the text of the sentinel. *)
Definition error_Error (sentinel : string) (e : error) : string :=
  match e with
  | ErrApiNotRunning => sentinel
  | errorString msg => msg
  end.

(** The name of the heap profile, line 42. *)
Definition heapProfile : string := "ipfs.memprof".

(** The values of [envCh <- v] among some events, in order. *)
Definition envSends (evs : list Event) : list (option builtEnv) :=
  omap (fun e => match e with EvSendEnv v => Some v | _ => None end) evs.

(** An example host for the environment builder: a process environment
    with [IPFS_LOGGING=debug], a default repository, plugins that load
    except under [/repo/badplugins], and a file system on which profiles can
    be created but not written. *)
Module ExampleHost.

Definition Getenv (name : string) : string :=
  if String.eqb name "IPFS_LOGGING" then "debug" else "".

Definition GetenvBool (name : string) : bool := false.

Definition BestKnownPath : string * option error := ("/home/user/.ipfs", None).

Definition NewPluginLoader (repoPath : string)
  : option PluginLoader * option error :=
  if String.eqb repoPath "/repo/noplugins"
  then (None, Some (errorString "open /repo/noplugins/plugins: permission denied"))
  else (Some (mkLoader 1), None).

Definition Initialize (plugins : option PluginLoader) : option error := None.

Definition Inject (plugins : option PluginLoader) : option error :=
  Some (errorString "plugin already registered").

Definition InjectOk (plugins : option PluginLoader) : option error := None.

Definition Create (name : string) : option os_File * option error :=
  (Some (mkFile 7), None).

Definition WriteHeapProfile (f : option os_File) : option error :=
  Some (errorString "write ipfs.memprof: no space left on device").

Definition Open (repoPath : string) : option repo_Repo * option error :=
  if String.eqb repoPath "/repo/locked"
  then (None, Some (errorString "lock /repo/locked/repo.lock: already locked"))
  else (Some (mkRepo 3), None).

Definition NewNode (ctx : context_Context) (r : option repo_Repo)
  : option IpfsNode * option error :=
  (Some (mkNode 9), None).

Definition start : Proc := {| u_Debug := false; events := [] |}.

(** A request with [--config config] when [config] is given. *)
Definition request (config : option string) : cmds_Request :=
  {| Context := Example.ctx; Root := Example.rootCmd;
     Command := Example.otherCmd; Path := ["swarm"; "peers"];
     Options := match config with
                | Some c => <["config" := VString c]> ∅
                | None => ∅
                end |}.

End ExampleHost.

(** ** The environment builder *)

Section Builder.

(** The process environment, and the collaborators of the builder. *)
Variable os_Getenv : string → string.
Variable u_GetenvBool : string → bool.
Variable ErrApiNotRunning_text : string.
Variable fsrepo_BestKnownPath : string * option error.
Variable loader_NewPluginLoader : string → option PluginLoader * option error.
Variable loader_Initialize : option PluginLoader → option error.
Variable loader_Inject : option PluginLoader → option error.
Variable os_Create : string → option os_File * option error.
Variable pprof_WriteHeapProfile : option os_File → option error.
Variable fsrepo_Open : string → option repo_Repo * option error.
Variable core_NewNode :
  context_Context → option repo_Repo → option IpfsNode * option error.

(** [err.Error()], as the [%s] verb prints it. *)
Definition Error (e : error) : string := error_Error ErrApiNotRunning_text e.

(** [loadPlugins], lines 53-67. *)
Definition loadPlugins (repoPath : string)
  : PFn (option PluginLoader * option error) :=
  pfunc (
    act (plugins, err) <- emit (EvNewPluginLoader repoPath)
                               (loader_NewPluginLoader repoPath);
    act _ <- (match err with
              | Some err => pReturn (None, Some (errorString
                              ("error loading plugins: " +:+ Error err)))
              | None => pret tt
              end);
    act err <- emit (EvInitialize plugins) (loader_Initialize plugins);
    act _ <- (match err with
              | Some err => pReturn (None, Some (errorString
                              ("error initializing plugins: " +:+ Error err)))
              | None => pret tt
              end);
    act err <- emit (EvInject plugins) (loader_Inject plugins);
    act _ <- (match err with
              | Some err => pReturn (None, Some (errorString
                              ("error initializing plugins: " +:+ Error err)))
              | None => pret tt
              end);
    pReturn (plugins, None)).

(** [checkDebug], lines 172-182. The type assertion [.(bool)] gives
    [false] when the key is absent or holds a value of another type. *)
Definition checkDebug (req : cmds_Request) : PFn unit :=
  pfunc (
    let debug := match Options req !! "debug" with
                 | Some (VBool b) => b
                 | _ => false
                 end in
    act _ <- (if debug || String.eqb (os_Getenv "IPFS_LOGGING") "debug"
              then
                act _ <- set_u_Debug true;
                emit EvSetDebugLogging tt
              else pret tt);
    act _ <- (if u_GetenvBool "DEBUG" then set_u_Debug true else pret tt);
    pReturn tt).

(** [getRepoPath], lines 302-313. *)
Definition getRepoPath (req : cmds_Request) : PFn (string * option error) :=
  pfunc (
    let '(repoOpt, found) := match Options req !! "config" with
                             | Some (VString s) => (s, true)
                             | _ => ("", false)
                             end in
    act _ <- (if found && negb (String.eqb repoOpt "")
              then pReturn (repoOpt, None)
              else pret tt);
    act (repoPath, err) <- emit EvBestKnownPath fsrepo_BestKnownPath;
    act _ <- (if notNil err then pReturn ("", err) else pret tt);
    pReturn (repoPath, None)).

(** [writeHeapProfileToFile], lines 348-355; the deferred [Close] runs
    once the value to return has been computed. *)
Definition writeHeapProfileToFile : PFn (option error) :=
  pfunc (
    act (mprof, err) <- emit (EvCreate heapProfile) (os_Create heapProfile);
    act _ <- (if notNil err then pReturn err else pret tt);
    act r <- emit (EvWriteHeapProfile mprof) (pprof_WriteHeapProfile mprof);
    act _ <- emit (EvClose mprof) tt;
    pReturn r).

(** The closure [ConstructNode] of an environment, lines 135-155. *)
Definition ConstructNode (env : builtEnv)
  : PFn (option IpfsNode * option error) :=
  pfunc (
    let req := captured_req env in
    let repoPath := ConfigRoot (env_base env) in
    let ctx := captured_ctx env in
    act _ <- (if negb (notNil req)
              then pReturn (None, Some (errors_New
                              "constructing node without a request"))
              else pret tt);
    act (r, err) <- emit (EvOpen repoPath) (fsrepo_Open repoPath);
    act _ <- (if notNil err then pReturn (None, err) else pret tt);
    act (n, err) <- emit (EvNewNode ctx r) (core_NewNode ctx r);
    act _ <- (if notNil err then pReturn (None, err) else pret tt);
    pReturn (n, None)).

(** The closure [buildEnv] of [command], lines 113-160. *)
Definition buildEnv (ctx : context_Context) (req : cmds_Request)
  : PFn (option builtEnv * option error) :=
  pfunc (
    act _ <- pinvoke (checkDebug req);
    act (repoPath, err) <- pinvoke (getRepoPath req);
    act _ <- (if notNil err
              then
                act _ <- emit (EvSendEnv None) tt;
                pReturn (None, err)
              else pret tt);
    act _ <- emit (EvDebugf ("config path is " +:+ repoPath)) tt;
    act (plugins, err) <- pinvoke (loadPlugins repoPath);
    act _ <- (if notNil err
              then
                act _ <- emit (EvSendEnv None) tt;
                pReturn (None, err)
              else pret tt);
    let env := {| env_base := {| ConfigRoot := repoPath |};
                  Plugins := plugins;
                  captured_req := Some req;
                  captured_ctx := ctx |} in
    act _ <- emit (EvSendEnv (Some env)) tt;
    pReturn (Some env, None)).

End Builder.

(** ** The program *)

Section Dispatch.

(** Static data and collaborators declared outside the source file. *)
Variable cmdDetailsMap : gmap string cmdDetails.
Variable daemonCmd : cmds_Command.
Variable ApiOption : string.
Variable APIPath : string.
Variable ma_NewMultiaddr : string -> option Multiaddr * option error.
Variable fsrepo_APIAddr : string -> option Multiaddr * option error.
Variable fsrepo_IsInitialized : string -> bool.
Variable dnsResolver_Resolve :
  context_Context -> Multiaddr -> list Multiaddr * option error.
Variable manet_DialArgs : option Multiaddr -> string * string * option error.

(** [commandDetails], lines 287-300. *)
Definition commandDetails (path : list string) : cmdDetails :=
  if (length path =? 0)%nat then
    {| cannotRunOnClient := false; cannotRunOnDaemon := false;
       doesNotUseRepo := true |}
  else
    foldl
      (fun details i =>
         match cmdDetailsMap !! strings_Join (take (i + 1) path) "/" with
         | Some cmdDetails => cmdDetails
         | None => details
         end)
      {| cannotRunOnClient := false; cannotRunOnDaemon := false;
         doesNotUseRepo := false |}
      (seq 0 (length path)).

(** [apiAddrOption], lines 184-190. The type assertion [.(string)] fails
    when the key is absent or holds a value of another type. *)
Definition apiAddrOption (req : cmds_Request)
  : Fn (option Multiaddr * option error) :=
  func (
    match Options req !! ApiOption with
    | Some (VString apiAddrStr) =>
        do r <- extern (CallNewMultiaddr apiAddrStr)
                       (ma_NewMultiaddr apiAddrStr);
        Return r
    | _ => Return (None, None)
    end).

(** [resolveAddr], lines 370-384. *)
Definition resolveAddr (ctx : context_Context) (addr : Multiaddr)
  : Fn (option Multiaddr * option error) :=
  func (
    let ctx := WithTimeout ctx (10 * Second) in
    do (addrs, err) <- extern (CallResolve ctx addr)
                               (dnsResolver_Resolve ctx addr);
    do _ <- (if notNil err then Return (None, err) else ret tt);
    do _ <- (if (length addrs =? 0)%nat
             then Return (None, Some (errors_New "non-resolvable API endpoint"))
             else ret tt);
    Return (addrs !! 0%nat, None)).

(** [makeExecutor], lines 192-284. *)
Definition makeExecutor (req : cmds_Request) (env : oldcmds_Context)
  : Fn (option Executor * option error) :=
  func (
    let exe := NewExecutor (Root req) in
    let cctx := env in
    let details := commandDetails (Path req) in
    do _ <- (if cannotRunOnClient details && cannotRunOnDaemon details
             then Return (None, Some (errorString
                                        ("command disabled: " +:+ fmt_v (Path req))))
             else ret tt);
    do _ <- (if negb (cannotRunOnClient details) && doesNotUseRepo details
             then Return (Some exe, None)
             else ret tt);
    do (apiAddr, err) <- invoke (apiAddrOption req);
    do _ <- (if notNil err then Return (None, err) else ret tt);
    let daemonRequested := notNil apiAddr && ptr_neq (Command req) daemonCmd in
    do _ <- (if cannotRunOnDaemon details || External (Command req)
             then
               do _ <- (if daemonRequested
                        then Return (None, Some (errors_New
                               "api flag specified but command cannot be run on the daemon"))
                        else ret tt);
               Return (Some exe, None)
             else ret tt);
    do apiAddr <- (if notNil apiAddr then ret apiAddr
                   else
                     do (apiAddr, err) <- extern (CallAPIAddr (ConfigRoot cctx))
                                                  (fsrepo_APIAddr (ConfigRoot cctx));
                     match err with
                     | None | Some ErrApiNotRunning => ret apiAddr
                     | Some _ => Return (None, err)
                     end);
    do addr <- (match apiAddr with
                | None =>
                    do _ <- (if cannotRunOnClient details
                             then Return (None, Some (errorString
                                    ("command must be run on the daemon: "
                                       +:+ fmt_v (Path req))))
                             else ret tt);
                    Return (Some exe, None)
                | Some addr => ret addr
                end);
    do (apiAddr, err) <- invoke (resolveAddr (Context req) addr);
    do _ <- (if notNil err then Return (None, err) else ret tt);
    do (network, host, err) <- extern (CallDialArgs apiAddr)
                                       (manet_DialArgs apiAddr);
    do _ <- (if notNil err then Return (None, err) else ret tt);
    let opts := [ClientWithAPIPrefix APIPath] in
    do opts <- (if negb daemonRequested
                then
                  do initialized <- extern (CallIsInitialized (ConfigRoot cctx))
                                           (fsrepo_IsInitialized (ConfigRoot cctx));
                  ret (if initialized
                       then opts ++ [ClientWithFallback exe] else opts)
                else ret opts);
    if String.eqb network "tcp" || String.eqb network "tcp4"
       || String.eqb network "tcp6"
    then Return (Some (NewClient host opts), None)
    else if String.eqb network "unix"
    then
      let path := host in
      let host := "unix" in
      let opts := opts ++ [ClientWithHTTPClient
                             {| DialContext := fun _ _ => mkDial "unix" path |}] in
      Return (Some (NewClient host opts), None)
    else Return (None, Some (errorString
                               ("unsupported API address: " +:+ fmt_s apiAddr)))).

(** The registry key tried at iteration [i] of the loop of
    [commandDetails], line 295. *)
Definition prefixKey (path : list string) (i : nat) : string :=
  strings_Join (take (i + 1) path) "/".

(** The value of [daemonRequested] at line 215. *)
Definition daemonRequested (req : cmds_Request) : bool :=
  notNil (fst (returned (apiAddrOption req)))
  && ptr_neq (Command req) daemonCmd.

(** The TCP-family case of the [switch] at line 267. *)
Definition isTCP (network : string) : bool :=
  String.eqb network "tcp" || String.eqb network "tcp4"
  || String.eqb network "tcp6".

(** Whether a list of client options holds a [ClientWithFallback]. *)
Definition hasFallback (opts : list ClientOpt) : bool :=
  existsb (fun o => match o with ClientWithFallback _ => true | _ => false end)
          opts.

(** The zero value of [cmdDetails]. *)
Definition zeroDetails : cmdDetails :=
  {| cannotRunOnClient := false; cannotRunOnDaemon := false;
     doesNotUseRepo := false |}.

(** The order in which [makeExecutor] reaches its collaborators. *)
Definition callRank (c : Call) : nat :=
  match c with
  | CallNewMultiaddr _ => 0
  | CallAPIAddr _ => 1
  | CallResolve _ _ => 2
  | CallDialArgs _ => 3
  | CallIsInitialized _ => 4
  end.

(** ** Capability lookup *)

(** One iteration of the loop of [commandDetails]. *)
Local Abbreviation lookupStep path :=
  (fun details i =>
     match cmdDetailsMap !! strings_Join (take (i + 1) path) "/" with
     | Some cmdDetails => cmdDetails
     | None => details
     end).

Lemma lookupStep_unregistered (path : list string) (l : list nat) acc :
  (∀ j, j ∈ l → cmdDetailsMap !! prefixKey path j = None) →
  foldl (lookupStep path) acc l = acc.
Proof.
  revert acc. induction l as [|j l IH]; intros acc Hl; [done|].
  cbn [foldl]. fold (prefixKey path j). rewrite (Hl j) by constructor.
  apply IH. intros k Hk. apply Hl. by constructor.
Qed.

Lemma seq_split_at (i n : nat) :
  i < n → seq 0 n = seq 0 i ++ i :: seq (S i) (n - S i).
Proof.
  intros Hi. replace n with (i + S (n - S i)) at 1 by lia.
  rewrite seq_app. reflexivity.
Qed.

(** C1. Capability lookup is a function of the path alone: the empty path
    has exactly the flags [{doesNotUseRepo: true}]; a path one of whose
    prefixes (segments joined by ["/"]) is registered gets the flags of the
    longest registered prefix; a non-empty path none of whose prefixes is
    registered gets the all-false flags. *)
Theorem commandDetails_deepest_registered_prefix :
  commandDetails [] =
    {| cannotRunOnClient := false; cannotRunOnDaemon := false;
       doesNotUseRepo := true |}
  ∧ (∀ (path : list string) (i : nat) (d : cmdDetails),
        i < length path →
        cmdDetailsMap !! prefixKey path i = Some d →
        (∀ j, i < j < length path → cmdDetailsMap !! prefixKey path j = None) →
        commandDetails path = d)
  ∧ (∀ path : list string,
        path ≠ [] →
        (∀ i, i < length path → cmdDetailsMap !! prefixKey path i = None) →
        commandDetails path = zeroDetails).
Proof.
  split; [reflexivity|]. split.
  - intros path i d Hi Hd Hlater. unfold commandDetails.
    destruct (Nat.eqb_spec (length path) 0) as [H0|_]; [lia|].
    rewrite (seq_split_at i (length path)) by done.
    rewrite foldl_app. cbn [foldl]. fold (prefixKey path i). rewrite Hd.
    apply lookupStep_unregistered. intros j Hj.
    apply elem_of_seq in Hj. apply Hlater. lia.
  - intros path Hne Hnone. unfold commandDetails.
    destruct (Nat.eqb_spec (length path) 0) as [H0|_].
    + destruct path; [done|discriminate].
    + apply lookupStep_unregistered. intros j Hj.
      apply elem_of_seq in Hj. apply Hnone. lia.
Qed.

(** ** Dispatch *)

(** Runs the statements of a body as far as their answers are known. *)
Ltac exec :=
  cbv beta iota zeta
      delta [func bind ret Return extern invoke calls returned notNil];
  cbn [app fst snd].

Ltac exec_in H :=
  cbv beta iota zeta
      delta [func bind ret Return extern invoke calls returned notNil] in H;
  cbn [app fst snd] in H.

(** Membership in a call log built from literal lists. *)
Ltac log_inv H :=
  repeat first
    [ apply elem_of_nil in H; destruct H
    | apply elem_of_app in H as [H|H]
    | apply elem_of_cons in H as [H|H] ];
  simplify_eq.

(** C2. A command whose flags have both [cannotRunOnClient] and
    [cannotRunOnDaemon] is refused with the "command disabled" error and no
    executor, whatever the options of the request, and before any
    collaborator is called. *)
Theorem makeExecutor_disabled (req : cmds_Request) (env : oldcmds_Context) :
  cannotRunOnClient (commandDetails (Path req)) = true →
  cannotRunOnDaemon (commandDetails (Path req)) = true →
  makeExecutor req env =
    ([], (None, Some (errorString ("command disabled: " +:+ fmt_v (Path req))))).
Proof.
  intros Hc Hd. unfold makeExecutor. rewrite Hc, Hd. reflexivity.
Qed.

(** C3. A command that may run on the client and does not use the
    repository gets the local executor at once: the call log is empty, so
    the API option was not parsed, and neither discovery nor resolution was
    invoked. *)
Theorem makeExecutor_fast_path (req : cmds_Request) (env : oldcmds_Context) :
  cannotRunOnClient (commandDetails (Path req)) = false →
  doesNotUseRepo (commandDetails (Path req)) = true →
  makeExecutor req env = ([], (Some (NewExecutor (Root req)), None)).
Proof.
  intros Hc Hr. unfold makeExecutor. rewrite Hc, Hr. reflexivity.
Qed.

(** What [apiAddrOption] does, by the shape of the option. *)
Lemma apiAddrOption_eq (req : cmds_Request) :
  apiAddrOption req =
    match Options req !! ApiOption with
    | Some (VString apiAddrStr) =>
        ([CallNewMultiaddr apiAddrStr], ma_NewMultiaddr apiAddrStr)
    | _ => ([], (None, None))
    end.
Proof.
  unfold apiAddrOption.
  destruct (Options req !! ApiOption) as [[s|b|n]|]; reflexivity.
Qed.

(** C4, as amended. A command that is not disabled, does not take the fast
    path and whose API option, if any, parses, and that has
    [cannotRunOnDaemon] or is external: it is refused with "api flag
    specified but command cannot be run on the daemon" when an address was
    given and the command is not the daemon command, and gets the local
    executor otherwise; nothing but the option parser is called. *)
Theorem makeExecutor_client_only (req : cmds_Request) (env : oldcmds_Context) :
  cannotRunOnClient (commandDetails (Path req))
    && cannotRunOnDaemon (commandDetails (Path req)) = false →
  negb (cannotRunOnClient (commandDetails (Path req)))
    && doesNotUseRepo (commandDetails (Path req)) = false →
  snd (returned (apiAddrOption req)) = None →
  cannotRunOnDaemon (commandDetails (Path req)) || External (Command req) = true →
  makeExecutor req env =
    (calls (apiAddrOption req),
     if daemonRequested req
     then (None, Some (errors_New
             "api flag specified but command cannot be run on the daemon"))
     else (Some (NewExecutor (Root req)), None)).
Proof.
  intros Hdis Hfast Hparse Hlocal.
  unfold makeExecutor, daemonRequested. rewrite Hdis, Hfast.
  destruct (apiAddrOption req) as [made [a e]]; cbn in Hparse; subst e.
  exec. rewrite Hlocal.
  destruct a, (ptr_neq (Command req) daemonCmd); reflexivity.
Qed.

(** C5. At the discovery step of the dispatch sequence - the command is
    not disabled, not on the fast path, neither [cannotRunOnDaemon] nor
    external - and without an explicit address: discovery is called on the
    repository path; an error other than [repo.ErrApiNotRunning] is
    returned as it is; with no address found, with or without the
    [repo.ErrApiNotRunning] signal, the command is refused with "command
    must be run on the daemon" when it has [cannotRunOnClient] and gets the
    local executor otherwise, discovery being the only call made. *)
Theorem makeExecutor_discovery (req : cmds_Request) (env : oldcmds_Context) :
  cannotRunOnClient (commandDetails (Path req))
    && cannotRunOnDaemon (commandDetails (Path req)) = false →
  negb (cannotRunOnClient (commandDetails (Path req)))
    && doesNotUseRepo (commandDetails (Path req)) = false →
  cannotRunOnDaemon (commandDetails (Path req)) || External (Command req) = false →
  apiAddrOption req = ([], (None, None)) →
  (∃ later, calls (makeExecutor req env) = CallAPIAddr (ConfigRoot env) :: later)
  ∧ (∀ a e, fsrepo_APIAddr (ConfigRoot env) = (a, Some e) →
            e ≠ ErrApiNotRunning →
            makeExecutor req env = ([CallAPIAddr (ConfigRoot env)], (None, Some e)))
  ∧ (fsrepo_APIAddr (ConfigRoot env) = (None, None)
     ∨ fsrepo_APIAddr (ConfigRoot env) = (None, Some ErrApiNotRunning) →
     makeExecutor req env =
       ([CallAPIAddr (ConfigRoot env)],
        if cannotRunOnClient (commandDetails (Path req))
        then (None, Some (errorString ("command must be run on the daemon: "
                                         +:+ fmt_v (Path req))))
        else (Some (NewExecutor (Root req)), None))).
Proof.
  intros Hdis Hfast Hlocal Hnone.
  unfold makeExecutor. rewrite Hdis, Hfast, Hnone. exec. rewrite Hlocal. exec.
  split; [|split].
  - repeat (case_match; simplify_eq/=); eauto.
  - intros a e -> Hne. destruct e as [|m]; [done|]. reflexivity.
  - intros [-> | ->];
      destruct (cannotRunOnClient (commandDetails (Path req))); reflexivity.
Qed.

(** C10. A request whose API option holds a string that the multiaddress
    parser rejects: a command that is not disabled and not on the fast path
    gets the parser's error, and a command on the fast path gets the local
    executor without the option being parsed. *)
Theorem makeExecutor_malformed_api (req : cmds_Request) (env : oldcmds_Context)
    (s : string) (a : option Multiaddr) (e : error) :
  Options req !! ApiOption = Some (VString s) →
  ma_NewMultiaddr s = (a, Some e) →
  (cannotRunOnClient (commandDetails (Path req))
     && cannotRunOnDaemon (commandDetails (Path req)) = false →
   negb (cannotRunOnClient (commandDetails (Path req)))
     && doesNotUseRepo (commandDetails (Path req)) = false →
   makeExecutor req env = ([CallNewMultiaddr s], (None, Some e)))
  ∧ (cannotRunOnClient (commandDetails (Path req)) = false →
     doesNotUseRepo (commandDetails (Path req)) = true →
     makeExecutor req env = ([], (Some (NewExecutor (Root req)), None))).
Proof.
  intros Hopt Hparse. split.
  - intros Hdis Hfast. unfold makeExecutor.
    rewrite Hdis, Hfast, apiAddrOption_eq, Hopt, Hparse. reflexivity.
  - intros Hc Hr. unfold makeExecutor. rewrite Hc, Hr. reflexivity.
Qed.

(** ** Address resolution *)

(** What [resolveAddr] does, by the answer of the resolver. *)
Lemma resolveAddr_eq (ctx : context_Context) (addr : Multiaddr) :
  resolveAddr ctx addr =
    ([CallResolve (WithTimeout ctx (10 * Second)) addr],
     let '(addrs, err) :=
       dnsResolver_Resolve (WithTimeout ctx (10 * Second)) addr in
     match err, addrs with
     | Some e, _ => (None, Some e)
     | None, [] => (None, Some (errorString "non-resolvable API endpoint"))
     | None, a :: _ => (Some a, None)
     end).
Proof.
  unfold resolveAddr. exec.
  destruct (dnsResolver_Resolve _ addr) as [[|a rest] [e|]]; reflexivity.
Qed.

(** C7. [resolveAddr] makes one call of the resolver, under the ten-second
    timeout: the resolver's error is returned as it is; an empty answer is
    the error "non-resolvable API endpoint"; otherwise the first address
    of the answer is returned, whatever follows it. *)
Theorem resolveAddr_first_candidate (ctx : context_Context) (addr : Multiaddr) :
  calls (resolveAddr ctx addr) =
    [CallResolve (WithTimeout ctx (10 * Second)) addr]
  ∧ (∀ addrs e,
       dnsResolver_Resolve (WithTimeout ctx (10 * Second)) addr = (addrs, Some e) →
       returned (resolveAddr ctx addr) = (None, Some e))
  ∧ (dnsResolver_Resolve (WithTimeout ctx (10 * Second)) addr = ([], None) →
     returned (resolveAddr ctx addr) =
       (None, Some (errorString "non-resolvable API endpoint")))
  ∧ (∀ a rest,
       dnsResolver_Resolve (WithTimeout ctx (10 * Second)) addr = (a :: rest, None) →
       returned (resolveAddr ctx addr) = (Some a, None)).
Proof.
  rewrite resolveAddr_eq. cbn [calls returned fst snd].
  split; [reflexivity|]. split; [|split].
  - intros addrs e ->. reflexivity.
  - intros ->. reflexivity.
  - intros a rest ->. reflexivity.
Qed.

(** ** Remote execution *)

(** The term whose value the evaluation of [t] waits for. *)
Ltac head_scrutinee t :=
  lazymatch t with
  | match ?x with _ => _ end => head_scrutinee x
  | (match ?x with _ => _ end) _ => head_scrutinee x
  | _ => t
  end.

(** Follows a run [E : body = (log, r)] of the dispatcher along the
    statements of the source, one case per answer, down to its returns. *)
Ltac dispatch_run E :=
  unfold makeExecutor in E;
  rewrite ?apiAddrOption_eq in E;
  exec_in E;
  repeat
    (lazymatch type of E with
     | (_, _) = (_, _) => fail
     | ?lhs = _ =>
         let x := head_scrutinee lhs in
         lazymatch x with
         | resolveAddr _ _ => rewrite resolveAddr_eq in E
         | _ => destruct x eqn:?
         end;
         exec_in E
     end);
  simplify_eq.

(** Once [manet.DialArgs] has been called on [ra] and has answered
    [(network, h)], the result is decided by [network] alone; the options
    are the API prefix, then the fallback if any, then the HTTP client of
    a local socket. *)
Lemma makeExecutor_after_dial (req : cmds_Request) (env : oldcmds_Context)
    (ra : option Multiaddr) (network h : string) :
  CallDialArgs ra ∈ calls (makeExecutor req env) →
  manet_DialArgs ra = (network, h, None) →
  returned (makeExecutor req env) =
    let opts :=
      ClientWithAPIPrefix APIPath ::
      (if negb (daemonRequested req) && fsrepo_IsInitialized (ConfigRoot env)
       then [ClientWithFallback (NewExecutor (Root req))] else []) in
    if isTCP network then (Some (NewClient h opts), None)
    else if String.eqb network "unix"
    then (Some (NewClient "unix"
                  (opts ++ [ClientWithHTTPClient
                              {| DialContext := fun _ _ => mkDial "unix" h |}])),
          None)
    else (None, Some (errorString ("unsupported API address: " +:+ fmt_s ra))).
Proof.
  unfold isTCP, calls, returned, daemonRequested.
  rewrite apiAddrOption_eq.
  destruct (makeExecutor req env) as [log r] eqn:E. cbn [fst snd].
  intros Hlog Hdial.
  dispatch_run E; log_inv Hlog.
  all: rewrite Hdial in *; simplify_eq/=.
  all: repeat match goal with H : _ = _ |- _ => rewrite H end.
  all: cbn; try destruct (fsrepo_IsInitialized (ConfigRoot env)); reflexivity.
Qed.

(** A remote client is returned only after [manet.DialArgs] has answered
    without an error. *)
Lemma makeExecutor_client_inv (req : cmds_Request) (env : oldcmds_Context)
    (host : string) (opts : list ClientOpt) :
  returned (makeExecutor req env) = (Some (NewClient host opts), None) →
  ∃ ra network h,
    CallDialArgs ra ∈ calls (makeExecutor req env)
    ∧ manet_DialArgs ra = (network, h, None).
Proof.
  unfold calls, returned.
  destruct (makeExecutor req env) as [log r] eqn:E. cbn [fst snd].
  intros ->. dispatch_run E.
  all: eexists _, _, _; (split; [|eassumption]);
    rewrite ?elem_of_app, ?elem_of_cons; auto 10.
Qed.


(** C8. The transport built from the answer [(network, h)] of
    [manet.DialArgs] on the resolved address [ra]: for [tcp], [tcp4] and
    [tcp6] a client on host [h], without an HTTP client of its own; for
    [unix] a client on host ["unix"] whose HTTP client dials the socket
    path [h] whatever network and address the HTTP layer passes; for any
    other network the error "unsupported API address" followed by [ra]. *)
Theorem makeExecutor_transport (req : cmds_Request) (env : oldcmds_Context)
    (ra : option Multiaddr) (network h : string) :
  CallDialArgs ra ∈ calls (makeExecutor req env) →
  manet_DialArgs ra = (network, h, None) →
  (network ∈ ["tcp"; "tcp4"; "tcp6"] →
   ∃ opts, returned (makeExecutor req env) = (Some (NewClient h opts), None)
           ∧ ∀ c, ClientWithHTTPClient c ∉ opts)
  ∧ (network = "unix" →
     ∃ opts c,
       returned (makeExecutor req env) =
         (Some (NewClient "unix" (opts ++ [ClientWithHTTPClient c])), None)
       ∧ (∀ net addr, DialContext c net addr = mkDial "unix" h)
       ∧ ∀ c', ClientWithHTTPClient c' ∉ opts)
  ∧ (network ∉ ["tcp"; "tcp4"; "tcp6"; "unix"] →
     returned (makeExecutor req env) =
       (None, Some (errorString ("unsupported API address: " +:+ fmt_s ra)))).
Proof.
  intros Hlog Hdial.
  rewrite (makeExecutor_after_dial _ _ _ _ _ Hlog Hdial). cbn zeta.
  assert (Hopts : ∀ c,
    ClientWithHTTPClient c ∉
      ClientWithAPIPrefix APIPath ::
      (if negb (daemonRequested req) && fsrepo_IsInitialized (ConfigRoot env)
       then [ClientWithFallback (NewExecutor (Root req))] else [])).
  { intros c Hc. destruct (negb _ && _); log_inv Hc. }
  split; [|split].
  - intros Hnet. replace (isTCP network) with true; [eauto|].
    log_inv Hnet; reflexivity.
  - intros ->. change (isTCP "unix") with false.
    change (String.eqb "unix" "unix") with true. cbv iota.
    eexists _, _. split; [reflexivity|]. split; [reflexivity|done].
  - intros Hnet.
    assert (isTCP network = false) as ->.
    { unfold isTCP. rewrite !orb_false_iff, !String.eqb_neq.
      repeat split; intros ->; apply Hnet; set_solver. }
    assert (String.eqb network "unix" = false) as ->; [|reflexivity].
    apply String.eqb_neq. intros ->. apply Hnet. set_solver.
Qed.

(** ** Further properties of the dispatcher *)

(** X1. [makeExecutor] returns an executor or an error, never both and
    never neither. *)
Theorem makeExecutor_executor_xor_error
    (req : cmds_Request) (env : oldcmds_Context) :
  (∃ exe, returned (makeExecutor req env) = (Some exe, None))
  ∨ (∃ e, returned (makeExecutor req env) = (None, Some e)).
Proof.
  unfold returned.
  destruct (makeExecutor req env) as [log r] eqn:E. cbn [snd].
  dispatch_run E; eauto.
Qed.

(** X2. The collaborators are reached in one order - option parser,
    discovery, resolver, dial arguments, repository check - and each at
    most once. *)
Theorem makeExecutor_call_order (req : cmds_Request) (env : oldcmds_Context) :
  StronglySorted lt (callRank <$> calls (makeExecutor req env)).
Proof.
  unfold calls.
  destruct (makeExecutor req env) as [log r] eqn:E. cbn [fst].
  dispatch_run E; cbn; repeat constructor.
Qed.

(** X3. Discovery is consulted only for the repository of the environment
    and only when the request carries no API address: an address given
    with the request is never overridden by the repository's record. *)
Theorem makeExecutor_discovery_calls
    (req : cmds_Request) (env : oldcmds_Context) (p : string) :
  CallAPIAddr p ∈ calls (makeExecutor req env) →
  p = ConfigRoot env ∧ fst (returned (apiAddrOption req)) = None.
Proof.
  unfold calls, returned. rewrite apiAddrOption_eq.
  destruct (makeExecutor req env) as [log r] eqn:E. cbn [fst].
  intros Hlog. dispatch_run E; log_inv Hlog; split; reflexivity.
Qed.

(** X4. The repository is checked for initialization only on the
    repository of the environment, only when [daemonRequested] is false,
    and only after [manet.DialArgs] has answered without an error. *)
Theorem makeExecutor_repo_check
    (req : cmds_Request) (env : oldcmds_Context) (p : string) :
  CallIsInitialized p ∈ calls (makeExecutor req env) →
  p = ConfigRoot env
  ∧ daemonRequested req = false
  ∧ ∃ ra network h,
      CallDialArgs ra ∈ calls (makeExecutor req env)
      ∧ manet_DialArgs ra = (network, h, None).
Proof.
  unfold calls, returned, daemonRequested. rewrite apiAddrOption_eq.
  destruct (makeExecutor req env) as [log r] eqn:E. cbn [fst].
  intros Hlog. dispatch_run E; log_inv Hlog.
  all: split; [reflexivity|]; split;
    [cbn in *; by destruct (ptr_neq (Command req) daemonCmd)|].
  all: eexists _, _, _; (split; [|eassumption]);
    rewrite ?elem_of_app, ?elem_of_cons; auto 10.
Qed.

(** X5. An error of [manet.DialArgs] is returned as it is, and the
    repository is then not checked. *)
Theorem makeExecutor_dial_error
    (req : cmds_Request) (env : oldcmds_Context)
    (ra : option Multiaddr) (network h : string) (e : error) :
  CallDialArgs ra ∈ calls (makeExecutor req env) →
  manet_DialArgs ra = (network, h, Some e) →
  returned (makeExecutor req env) = (None, Some e)
  ∧ ∀ p, CallIsInitialized p ∉ calls (makeExecutor req env).
Proof.
  unfold calls, returned.
  destruct (makeExecutor req env) as [log r] eqn:E. cbn [fst snd].
  intros Hlog Hdial. dispatch_run E; log_inv Hlog.
  all: rewrite Hdial in *; simplify_eq.
  all: split; [reflexivity|]; intros p Hp; log_inv Hp.
Qed.

(** X6. When the resolution of the address fails - the resolver's own
    error, or no candidate - that error is returned and
    [manet.DialArgs] is not called. *)
Theorem makeExecutor_resolve_error
    (req : cmds_Request) (env : oldcmds_Context)
    (c : context_Context) (a : Multiaddr) (e : error) :
  CallResolve c a ∈ calls (makeExecutor req env) →
  snd (returned (resolveAddr (Context req) a)) = Some e →
  returned (makeExecutor req env) = (None, Some e)
  ∧ ∀ ra, CallDialArgs ra ∉ calls (makeExecutor req env).
Proof.
  unfold calls, returned. rewrite resolveAddr_eq.
  destruct (makeExecutor req env) as [log r] eqn:E. cbn [fst snd].
  intros Hlog Hres. dispatch_run E; log_inv Hlog.
  all: repeat match goal with
         | H : dnsResolver_Resolve _ _ = _ |- _ => rewrite H in Hres
         end; simplify_eq/=.
  all: split; [reflexivity|]; intros ra Hra; log_inv Hra.
Qed.

(** X7. The address handed to the resolver is the one given with the
    request or, when there is none, the one found by discovery; it is
    resolved under the ten-second timeout on the request's context. *)
Theorem makeExecutor_resolves_chosen_address
    (req : cmds_Request) (env : oldcmds_Context)
    (c : context_Context) (a : Multiaddr) :
  CallResolve c a ∈ calls (makeExecutor req env) →
  c = WithTimeout (Context req) (10 * Second)
  ∧ (fst (returned (apiAddrOption req)) = Some a
     ∨ (fst (returned (apiAddrOption req)) = None
        ∧ fst (fsrepo_APIAddr (ConfigRoot env)) = Some a)).
Proof.
  unfold calls, returned. rewrite apiAddrOption_eq.
  destruct (makeExecutor req env) as [log r] eqn:E. cbn [fst].
  intros Hlog. dispatch_run E; log_inv Hlog.
  all: split; [reflexivity|]; cbn;
    repeat match goal with H : _ = _ |- _ => rewrite H end; cbn; auto.
Qed.

(** X8. The address handed to [manet.DialArgs] is what [resolveAddr]
    returned for the address handed to the resolver. *)
Theorem makeExecutor_dials_resolved
    (req : cmds_Request) (env : oldcmds_Context) (ra : option Multiaddr) :
  CallDialArgs ra ∈ calls (makeExecutor req env) →
  ∃ c a, CallResolve c a ∈ calls (makeExecutor req env)
         ∧ returned (resolveAddr (Context req) a) = (ra, None).
Proof.
  unfold calls, returned. setoid_rewrite resolveAddr_eq.
  destruct (makeExecutor req env) as [log r] eqn:E. cbn [fst snd].
  intros Hlog. dispatch_run E; log_inv Hlog.
  all: eexists _, _; split;
    [rewrite ?elem_of_app, ?elem_of_cons; auto 10|].
  all: repeat match goal with H : _ = _ |- _ => rewrite H end; reflexivity.
Qed.

(** X25. A command with [cannotRunOnDaemon], or an external one, never
    gets a remote client: it gets the request's local executor or an
    error, and no collaborator but the option parser is called, so neither
    the daemon's record nor the network is touched. *)
Theorem makeExecutor_never_remote (req : cmds_Request) (env : oldcmds_Context) :
  cannotRunOnDaemon (commandDetails (Path req)) || External (Command req) = true →
  (returned (makeExecutor req env) = (Some (NewExecutor (Root req)), None)
   ∨ ∃ e, returned (makeExecutor req env) = (None, Some e))
  ∧ ∀ c, c ∈ calls (makeExecutor req env) → ∃ s, c = CallNewMultiaddr s.
Proof.
  unfold calls, returned.
  destruct (makeExecutor req env) as [log r] eqn:E. cbn [fst snd].
  intros Hlocal. dispatch_run E.
  all: try congruence.
  all: split; [eauto|]; intros c Hc; log_inv Hc; eauto.
Qed.

(** A command with [cannotRunOnClient] that is not external gets a remote
    client or an error. *)
Lemma makeExecutor_client_or_error (req : cmds_Request) (env : oldcmds_Context) :
  cannotRunOnClient (commandDetails (Path req)) = true →
  External (Command req) = false →
  (∃ host opts, returned (makeExecutor req env) = (Some (NewClient host opts), None))
  ∨ (∃ e, returned (makeExecutor req env) = (None, Some e)).
Proof.
  unfold returned.
  destruct (makeExecutor req env) as [log r] eqn:E. cbn [snd].
  intros Hclient Hext. dispatch_run E; eauto.
  all: try rewrite Hclient in *; try rewrite Hext in *; cbn in *;
    try congruence.
  all: destruct (cannotRunOnDaemon (commandDetails (Path req))); cbn in *;
    congruence.
Qed.


(** ** Further properties of the capability lookup *)

(** The loop of [commandDetails] looks at the path only through the keys
    of the indices it visits. *)
Lemma lookupStep_same_keys (path path' : list string) (l : list nat) acc :
  (∀ j, j ∈ l → prefixKey path j = prefixKey path' j) →
  foldl (lookupStep path) acc l = foldl (lookupStep path') acc l.
Proof.
  revert acc. induction l as [|j l IH]; intros acc Hl; [done|].
  cbn [foldl]. fold (prefixKey path j) (prefixKey path' j).
  rewrite (Hl j) by constructor.
  apply IH. intros k Hk. apply Hl. by constructor.
Qed.

(** What the loop returns is its starting value or a registered entry of
    an index it visited. *)
Lemma lookupStep_from_registry (path : list string) (l : list nat) acc :
  foldl (lookupStep path) acc l = acc
  ∨ ∃ j, j ∈ l
         ∧ cmdDetailsMap !! prefixKey path j
           = Some (foldl (lookupStep path) acc l).
Proof.
  revert acc. induction l as [|j l IH]; intros acc; [by left|].
  cbn [foldl]. fold (prefixKey path j).
  destruct (cmdDetailsMap !! prefixKey path j) as [d|] eqn:Hj.
  - destruct (IH d) as [-> | (k & Hk & Hd)].
    + right. exists j. split; [constructor|done].
    + right. exists k. split; [by constructor|done].
  - destruct (IH acc) as [-> | (k & Hk & Hd)]; [by left|].
    right. exists k. split; [by constructor|done].
Qed.

(** X9. A command inherits the flags of its parent: extending a non-empty
    path by segments none of which makes a registered prefix leaves the
    flags unchanged. The empty path is excluded: the commands below the
    root do not inherit [doesNotUseRepo] from it. *)
Theorem commandDetails_inherited (path ext : list string) :
  path ≠ [] →
  (∀ j, length path ≤ j < length (path ++ ext) →
        cmdDetailsMap !! prefixKey (path ++ ext) j = None) →
  commandDetails (path ++ ext) = commandDetails path.
Proof.
  intros Hne Hext. unfold commandDetails.
  destruct (Nat.eqb_spec (length (path ++ ext)) 0) as [H0|_].
  { rewrite length_app in H0. destruct path; [done|cbn in H0; lia]. }
  destruct (Nat.eqb_spec (length path) 0) as [H0|_].
  { destruct path; [done|discriminate]. }
  rewrite length_app, seq_app, foldl_app.
  rewrite lookupStep_unregistered.
  - apply lookupStep_same_keys. intros j Hj. apply elem_of_seq in Hj.
    unfold prefixKey. rewrite take_app_le by lia. reflexivity.
  - intros j Hj. apply elem_of_seq in Hj. apply Hext.
    rewrite length_app. lia.
Qed.

(** X10. A command registered under its own full path gets its own entry,
    whatever is registered for its ancestors. *)
Theorem commandDetails_own_entry (path : list string) (d : cmdDetails) :
  path ≠ [] →
  cmdDetailsMap !! strings_Join path "/" = Some d →
  commandDetails path = d.
Proof.
  intros Hne Hd. unfold commandDetails.
  destruct (Nat.eqb_spec (length path) 0) as [H0|Hlen].
  { destruct path; [done|discriminate]. }
  rewrite (seq_split_at (length path - 1) (length path)) by lia.
  rewrite foldl_app. cbn [foldl].
  replace (length path - 1 + 1) with (length path) by lia.
  rewrite firstn_all, Hd.
  replace (length path - S (length path - 1)) with 0 by lia. reflexivity.
Qed.

(** X11. Flags other than the all-false ones are never made up: on a
    non-empty path they are the entry of a registered prefix. *)
Theorem commandDetails_from_registry (path : list string) :
  path ≠ [] →
  commandDetails path ≠ zeroDetails →
  ∃ i, i < length path
       ∧ cmdDetailsMap !! prefixKey path i = Some (commandDetails path).
Proof.
  intros Hne Hnz. unfold commandDetails in *.
  destruct (Nat.eqb_spec (length path) 0) as [H0|_].
  { destruct path; [done|discriminate]. }
  destruct (lookupStep_from_registry path (seq 0 (length path)) zeroDetails)
    as [Hz | (j & Hj & Hd)]; [done|].
  exists j. apply elem_of_seq in Hj. split; [lia|done].
Qed.

End Dispatch.

(** ** Further properties of the argument rewriting *)

(** X12. The rewriting panics on the empty argument list and on no
    other. *)
Theorem command_args_panics_iff_empty (args : list string) :
  command_args args = None ↔ args = [].
Proof.
  split; [|intros ->; reflexivity].
  destruct args as [|p [|a1 rest]]; [done|discriminate|].
  unfold command_args. cbn.
  destruct (String.eqb a1 "--version"); cbn; [discriminate|].
  destruct (String.eqb a1 "help"); cbn; [|discriminate].
  destruct rest as [|c rest]; cbn; [discriminate|].
  destruct (String.eqb c "--help"); discriminate.
Qed.

(** X13. A command line whose first user argument is neither [--version]
    nor [help] goes through unchanged, but for the program name; these
    two words are not rewritten in any later position. *)
Theorem command_args_other_commands (p a1 : string) (rest : list string) :
  a1 ≠ "--version" →
  a1 ≠ "help" →
  command_args (p :: a1 :: rest) = Some ("ipfs" :: a1 :: rest).
Proof.
  intros Hv Hh. apply String.eqb_neq in Hv, Hh.
  unfold command_args. cbn. rewrite Hv. cbn. rewrite Hh. reflexivity.
Qed.

(** X14. The rewriting keeps the number of arguments, except for
    [help --help ...], where the word [help] is removed. *)
Theorem command_args_length (args r : list string) :
  command_args args = Some r →
  length r = length args
  ∨ ∃ p rest, args = p :: "help" :: "--help" :: rest
              ∧ r = "ipfs" :: "--help" :: rest.
Proof.
  destruct args as [|p [|a1 rest]]; [discriminate|intros [= <-]; by left|].
  unfold command_args. cbn.
  destruct (String.eqb a1 "--version"); cbn; [intros [= <-]; by left|].
  destruct (String.eqb_spec a1 "help") as [->|_]; cbn; [|intros [= <-]; by left].
  destruct rest as [|c rest]; cbn; [intros [= <-]; by left|].
  destruct (String.eqb_spec c "--help") as [->|_]; cbn; intros [= <-].
  - right. eauto.
  - left. cbn. rewrite length_app. cbn. lia.
Qed.

(** ** Properties of the environment builder *)

Section BuilderProperties.

Variable os_Getenv : string → string.
Variable u_GetenvBool : string → bool.
Variable ErrApiNotRunning_text : string.
Variable fsrepo_BestKnownPath : string * option error.
Variable loader_NewPluginLoader : string → option PluginLoader * option error.
Variable loader_Initialize : option PluginLoader → option error.
Variable loader_Inject : option PluginLoader → option error.
Variable os_Create : string → option os_File * option error.
Variable pprof_WriteHeapProfile : option os_File → option error.
Variable fsrepo_Open : string → option repo_Repo * option error.
Variable core_NewNode :
  context_Context → option repo_Repo → option IpfsNode * option error.

Local Abbreviation Error := (Error ErrApiNotRunning_text).
Local Abbreviation loadPlugins :=
  (loadPlugins ErrApiNotRunning_text loader_NewPluginLoader
     loader_Initialize loader_Inject).
Local Abbreviation checkDebug := (checkDebug os_Getenv u_GetenvBool).
Local Abbreviation getRepoPath := (getRepoPath fsrepo_BestKnownPath).
Local Abbreviation writeHeapProfileToFile :=
  (writeHeapProfileToFile os_Create pprof_WriteHeapProfile).
Local Abbreviation ConstructNode := (ConstructNode fsrepo_Open core_NewNode).
Local Abbreviation buildEnv :=
  (buildEnv os_Getenv u_GetenvBool ErrApiNotRunning_text fsrepo_BestKnownPath
     loader_NewPluginLoader loader_Initialize loader_Inject).

(** Adds events to a state. *)
Local Abbreviation after st evs :=
  {| u_Debug := u_Debug st; events := events st ++ evs |}.

(** Runs the statements of a body as far as their answers are known. *)
Ltac pexec :=
  repeat progress
    (cbv beta iota zeta
         delta [pfunc pbind pret pReturn emit set_u_Debug pinvoke notNil];
     cbn [fst snd u_Debug events negb andb orb]).

(** What [checkDebug] does to the state. *)
Lemma checkDebug_eq (req : cmds_Request) (st : Proc) :
  checkDebug req st =
    ({| u_Debug :=
          u_Debug st
          || (match Options req !! "debug" with
              | Some (VBool b) => b
              | _ => false
              end || String.eqb (os_Getenv "IPFS_LOGGING") "debug")
          || u_GetenvBool "DEBUG";
        events :=
          events st ++
          (if match Options req !! "debug" with
              | Some (VBool b) => b
              | _ => false
              end || String.eqb (os_Getenv "IPFS_LOGGING") "debug"
           then [EvSetDebugLogging] else []) |},
     tt).
Proof.
  unfold checkDebug. destruct st as [d evs]. pexec.
  destruct (_ || String.eqb (os_Getenv "IPFS_LOGGING") "debug");
    destruct (u_GetenvBool "DEBUG"); pexec;
    rewrite ?app_nil_r, ?orb_true_r, ?orb_false_r; reflexivity.
Qed.

(** X15. [checkDebug] only ever raises [u.Debug]: it is set by a true
    [debug] option, by [IPFS_LOGGING=debug] and by a true [DEBUG], and kept
    otherwise. Debug logging is switched on, once, in the first two cases
    only. A [debug] option that is not a boolean counts as false. *)
Theorem checkDebug_effect (req : cmds_Request) (st : Proc) :
  let debug := match Options req !! "debug" with
               | Some (VBool b) => b
               | _ => false
               end in
  let verbose := debug || String.eqb (os_Getenv "IPFS_LOGGING") "debug" in
  let st' := fst (checkDebug req st) in
  (u_Debug st = true → u_Debug st' = true)
  ∧ u_Debug st' = u_Debug st || verbose || u_GetenvBool "DEBUG"
  ∧ events st' = events st ++ (if verbose then [EvSetDebugLogging] else []).
Proof.
  intros debug verbose st'. subst debug verbose st'.
  rewrite checkDebug_eq. cbn [fst u_Debug events].
  split; [|split]; [|reflexivity..].
  intros ->. reflexivity.
Qed.

(** X16. A non-empty [config] option is the repository path, and the
    best known path is then not asked for. *)
Theorem getRepoPath_config_option (req : cmds_Request) (st : Proc) (p : string) :
  Options req !! "config" = Some (VString p) →
  p ≠ "" →
  getRepoPath req st = (st, (p, None)).
Proof.
  intros Hopt Hp. apply String.eqb_neq in Hp.
  unfold getRepoPath. rewrite Hopt. pexec. rewrite Hp. reflexivity.
Qed.

(** X17. Without a [config] option - absent, not a string, or the empty
    string - the best known path is asked for once; its error is returned
    with the empty path, whatever path came with the error. *)
Theorem getRepoPath_best_known (req : cmds_Request) (st : Proc) :
  (∀ p, Options req !! "config" = Some (VString p) → p = "") →
  getRepoPath req st =
    (after st [EvBestKnownPath],
     match fsrepo_BestKnownPath with
     | (repoPath, None) => (repoPath, None)
     | (_, Some e) => ("", Some e)
     end).
Proof.
  intros Hopt. unfold getRepoPath.
  destruct (Options req !! "config") as [[p|b|n]|];
    [rewrite (Hopt p eq_refl)|..];
    destruct fsrepo_BestKnownPath as [repoPath [e|]]; reflexivity.
Qed.

(** X18. [loadPlugins] succeeds exactly when the loader is created,
    initialized and injected without an error; it then returns the loader
    it created, after these three steps in this order. *)
Theorem loadPlugins_success (repoPath : string) (st : Proc) :
  let plugins := fst (loader_NewPluginLoader repoPath) in
  (snd (snd (loadPlugins repoPath st)) = None ↔
   snd (loader_NewPluginLoader repoPath) = None
   ∧ loader_Initialize plugins = None
   ∧ loader_Inject plugins = None)
  ∧ (snd (snd (loadPlugins repoPath st)) = None →
     loadPlugins repoPath st =
       (after st [EvNewPluginLoader repoPath; EvInitialize plugins;
                  EvInject plugins],
        (plugins, None))).
Proof.
  intros plugins. subst plugins. unfold loadPlugins. pexec.
  destruct (loader_NewPluginLoader repoPath) as [plugins [e|]]; pexec;
    [split; [split; [done|intros (? & _); done]|done]|].
  destruct (loader_Initialize plugins) as [e|]; pexec;
    [split; [split; [done|intros (_ & ? & _); done]|done]|].
  destruct (loader_Inject plugins) as [e|]; pexec;
    [split; [split; [done|intros (_ & _ & ?); done]|done]|].
  rewrite <- ?app_assoc. done.
Qed.

(** X19. [loadPlugins] stops at the first step that fails and returns no
    loader: the error of [NewPluginLoader] comes back as "error loading
    plugins: ...", the error of [Initialize] and the error of [Inject] both
    as "error initializing plugins: ...". *)
Theorem loadPlugins_failure (repoPath : string) (st : Proc)
    (plugins : option PluginLoader) (e : error) :
  (loader_NewPluginLoader repoPath = (plugins, Some e) →
   loadPlugins repoPath st =
     (after st [EvNewPluginLoader repoPath],
      (None, Some (errorString ("error loading plugins: " +:+ Error e)))))
  ∧ (loader_NewPluginLoader repoPath = (plugins, None) →
     loader_Initialize plugins = Some e →
     loadPlugins repoPath st =
       (after st [EvNewPluginLoader repoPath; EvInitialize plugins],
        (None, Some (errorString ("error initializing plugins: " +:+ Error e)))))
  ∧ (loader_NewPluginLoader repoPath = (plugins, None) →
     loader_Initialize plugins = None →
     loader_Inject plugins = Some e →
     loadPlugins repoPath st =
       (after st [EvNewPluginLoader repoPath; EvInitialize plugins;
                  EvInject plugins],
        (None, Some (errorString ("error initializing plugins: " +:+ Error e))))).
Proof.
  unfold loadPlugins. pexec. split; [|split].
  - intros ->. reflexivity.
  - intros -> Hi. pexec. rewrite Hi. pexec. rewrite <- ?app_assoc. reflexivity.
  - intros -> Hi Hj. pexec. rewrite Hi. pexec. rewrite Hj. pexec.
    rewrite <- ?app_assoc. reflexivity.
Qed.

(** X20. [writeHeapProfileToFile] closes the file it created once, after
    the profile is written and whether or not writing failed, and returns
    the error of the writing; when the file cannot be created nothing is
    written or closed. *)
Theorem writeHeapProfileToFile_closes (st : Proc) (mprof : option os_File) :
  (∀ e, os_Create heapProfile = (mprof, Some e) →
        writeHeapProfileToFile st = (after st [EvCreate heapProfile], Some e))
  ∧ (os_Create heapProfile = (mprof, None) →
     writeHeapProfileToFile st =
       (after st [EvCreate heapProfile; EvWriteHeapProfile mprof;
                  EvClose mprof],
        pprof_WriteHeapProfile mprof)).
Proof.
  unfold writeHeapProfileToFile. pexec. split.
  - intros e ->. reflexivity.
  - intros ->. pexec. rewrite <- ?app_assoc. reflexivity.
Qed.

(** X21. The closure [ConstructNode]: without a request it fails before
    the repository is opened; when the repository cannot be opened the
    node is not built and the error is returned; otherwise the node is
    built on the opened repository under the captured context, and an
    error of [core.NewNode] is returned without a node. *)
Theorem ConstructNode_steps (env : builtEnv) (st : Proc) :
  (captured_req env = None →
   ConstructNode env st =
     (st, (None, Some (errors_New "constructing node without a request"))))
  ∧ (∀ r e, captured_req env ≠ None →
            fsrepo_Open (ConfigRoot (env_base env)) = (r, Some e) →
            ConstructNode env st =
              (after st [EvOpen (ConfigRoot (env_base env))], (None, Some e)))
  ∧ (∀ r, captured_req env ≠ None →
          fsrepo_Open (ConfigRoot (env_base env)) = (r, None) →
          ConstructNode env st =
            (after st [EvOpen (ConfigRoot (env_base env));
                       EvNewNode (captured_ctx env) r],
             match core_NewNode (captured_ctx env) r with
             | (n, None) => (n, None)
             | (_, Some e) => (None, Some e)
             end)).
Proof.
  unfold ConstructNode. split; [|split].
  - intros ->. reflexivity.
  - intros r e Hreq ->. destruct (captured_req env); [|done]. reflexivity.
  - intros r Hreq ->. destruct (captured_req env); [|done]. pexec.
    destruct (core_NewNode (captured_ctx env) r) as [n [e|]]; pexec;
      rewrite <- ?app_assoc; reflexivity.
Qed.

(** Follows [buildEnv] along its helpers, one case per answer. *)
Ltac buildEnv_run :=
  unfold buildEnv; pexec; rewrite checkDebug_eq; pexec;
  unfold getRepoPath;
  destruct (Options _ !! "config") as [[p|b|n]|]; pexec;
  try destruct (String.eqb p ""); pexec;
  try destruct fsrepo_BestKnownPath as [repoPath [?e|]]; pexec;
  try (unfold loadPlugins; pexec;
       destruct (loader_NewPluginLoader _) as [plugins [?e|]] eqn:?; pexec;
       try (destruct (loader_Initialize plugins) as [?e|]; pexec;
            try (destruct (loader_Inject plugins) as [?e|]; pexec))).

(** X22. Every call of [buildEnv] sends exactly one value on [envCh], and
    it is the environment it returns: nil together with an error, or the
    environment built together with no error. *)
Theorem buildEnv_sends_once (ctx : context_Context) (req : cmds_Request)
    (st : Proc) :
  envSends (events (fst (buildEnv ctx req st)))
    = envSends (events st) ++ [fst (snd (buildEnv ctx req st))]
  ∧ (fst (snd (buildEnv ctx req st)) = None
     ↔ snd (snd (buildEnv ctx req st)) ≠ None).
Proof.
  buildEnv_run.
  all: split;
    [|split; intros H; solve [discriminate H | done | exfalso; by apply H]].
  all: unfold envSends; rewrite ?omap_app;
    destruct (_ || String.eqb (os_Getenv "IPFS_LOGGING") "debug");
    cbn; rewrite ?app_nil_r; reflexivity.
Qed.

(** X23. The environment [buildEnv] returns has the path returned by
    [getRepoPath] as its [ConfigRoot], carries the loader created for that
    path, and its [ConstructNode] has captured the request and the context
    of the call. *)
Theorem buildEnv_environment (ctx : context_Context) (req : cmds_Request)
    (st : Proc) (env : builtEnv) :
  snd (buildEnv ctx req st) = (Some env, None) →
  snd (getRepoPath req st) = (ConfigRoot (env_base env), None)
  ∧ Plugins env = fst (loader_NewPluginLoader (ConfigRoot (env_base env)))
  ∧ captured_req env = Some req
  ∧ captured_ctx env = ctx.
Proof.
  revert env. buildEnv_run.
  all: intros env [= <-]; cbn.
  all: repeat match goal with H : _ = _ |- _ => rewrite H end; done.
Qed.

(** X24. When [buildEnv] fails: without a repository path the error of
    [getRepoPath] is returned and, after [checkDebug], nothing is done but
    asking for the path and sending nil, so no plugin is loaded; with a
    path but without plugins the error of [loadPlugins] is returned. *)
Theorem buildEnv_failure (ctx : context_Context) (req : cmds_Request)
    (st : Proc) (e : error) :
  (snd (snd (getRepoPath req st)) = Some e →
   snd (buildEnv ctx req st) = (None, Some e)
   ∧ events (fst (buildEnv ctx req st))
     = events (fst (checkDebug req st)) ++ [EvBestKnownPath; EvSendEnv None])
  ∧ (snd (snd (getRepoPath req st)) = None →
     snd (snd (loadPlugins (fst (snd (getRepoPath req st))) st)) = Some e →
     snd (buildEnv ctx req st) = (None, Some e)).
Proof.
  split.
  - rewrite checkDebug_eq. buildEnv_run.
    all: intros [= <-]; rewrite <- ?app_assoc; done.
  - buildEnv_run.
    all: intros Hp [= <-]; done.
Qed.

End BuilderProperties.

(** ** Argument rewriting *)

(** C9, as amended. On an argument list that holds at least the program
    name: [--version] in first position becomes [version]; [help cmd ...]
    with [cmd] other than [--help] becomes [cmd ... --help]; [help] alone
    becomes [--help]; [help --help ...] becomes [--help ...], the word
    [help] being dropped and no second [--help] appended; and the program
    name becomes [ipfs]. *)
Theorem command_args_rewrite :
  (∀ p rest,
     command_args (p :: "--version" :: rest) = Some ("ipfs" :: "version" :: rest))
  ∧ (∀ p c rest,
       c ≠ "--help" →
       command_args (p :: "help" :: c :: rest) =
         Some ("ipfs" :: c :: rest ++ ["--help"]))
  ∧ (∀ p, command_args [p; "help"] = Some ["ipfs"; "--help"])
  ∧ (∀ p rest,
       command_args (p :: "help" :: "--help" :: rest) =
         Some ("ipfs" :: "--help" :: rest))
  ∧ (∀ p rest, ∃ rest', command_args (p :: rest) = Some ("ipfs" :: rest')).
Proof.
  split; [|split; [|split; [|split]]].
  - intros p rest. reflexivity.
  - intros p c rest Hc. unfold command_args. cbn.
    apply String.eqb_neq in Hc. rewrite Hc. reflexivity.
  - intros p. reflexivity.
  - intros p rest. reflexivity.
  - intros p [|a1 rest]; [eexists; reflexivity|].
    unfold command_args. cbn.
    destruct (String.eqb a1 "--version"); cbn; [eexists; reflexivity|].
    destruct (String.eqb a1 "help"); cbn; [|eexists; reflexivity].
    destruct rest as [|c rest]; cbn; [eexists; reflexivity|].
    destruct (String.eqb c "--help"); cbn; eexists; reflexivity.
Qed.

(** ** The theorems on the example installation *)

Local Notation "'ex_commandDetails'" :=
  (commandDetails Example.cmdDetailsMap).
Local Notation "'ex_apiAddrOption'" :=
  (apiAddrOption Example.ApiOption Example.NewMultiaddr).
Local Notation "'ex_daemonRequested'" :=
  (daemonRequested Example.daemonCmd Example.ApiOption Example.NewMultiaddr).
Local Notation "'ex_resolveAddr'" :=
  (resolveAddr Example.Resolve).
Local Notation "'ex_makeExecutor'" :=
  (makeExecutor Example.cmdDetailsMap Example.daemonCmd Example.ApiOption
     Example.APIPath Example.NewMultiaddr Example.APIAddr
     Example.IsInitialized Example.Resolve Example.DialArgs).

(** [diag/cmds/clear] inherits the flags of [diag/cmds]. *)
Lemma commandDetails_deepest_registered_prefix_witness :
  ex_commandDetails ["diag"; "cmds"; "clear"] = Example.details true false false.
Proof.
  apply (proj1 (proj2 (commandDetails_deepest_registered_prefix
                         Example.cmdDetailsMap))
           ["diag"; "cmds"; "clear"] 1).
  - cbn. lia.
  - vm_compute. reflexivity.
  - intros j Hj. cbn in Hj. assert (j = 2) as -> by lia.
    vm_compute. reflexivity.
Defined.

(** [legacy] is refused although an address is given. *)
Lemma makeExecutor_disabled_witness :
  ex_makeExecutor
    (Example.request Example.otherCmd ["legacy"] (Some "/ip4/127.0.0.1/tcp/5001"))
    (Example.env "/repo/tcp")
  = ([], (None, Some (errorString "command disabled: [legacy]"))).
Proof.
  apply (makeExecutor_disabled Example.cmdDetailsMap Example.daemonCmd
           Example.ApiOption Example.APIPath Example.NewMultiaddr
           Example.APIAddr Example.IsInitialized Example.Resolve
           Example.DialArgs
           (Example.request Example.otherCmd ["legacy"]
              (Some "/ip4/127.0.0.1/tcp/5001"))
           (Example.env "/repo/tcp"));
    vm_compute; reflexivity.
Defined.

(** [version] runs locally, next to a running daemon, with no call made. *)
Lemma makeExecutor_fast_path_witness :
  ex_makeExecutor (Example.request Example.otherCmd ["version"] None)
                  (Example.env "/repo/tcp")
  = ([], (Some (NewExecutor Example.rootCmd), None)).
Proof.
  apply (makeExecutor_fast_path Example.cmdDetailsMap Example.daemonCmd
           Example.ApiOption Example.APIPath Example.NewMultiaddr
           Example.APIAddr Example.IsInitialized Example.Resolve
           Example.DialArgs
           (Example.request Example.otherCmd ["version"] None)
           (Example.env "/repo/tcp"));
    vm_compute; reflexivity.
Defined.

(** C4 as stated fails: [init] has [cannotRunOnDaemon], an address is given
    and the command is not the daemon command, yet the answer is the local
    executor, not the refusal, because [init] takes the fast path. *)
Lemma makeExecutor_client_only_counterexample :
  cannotRunOnDaemon (ex_commandDetails ["init"]) = true
  ∧ ex_daemonRequested
      (Example.request Example.otherCmd ["init"] (Some "/ip4/127.0.0.1/tcp/5001"))
    = true
  ∧ returned
      (ex_makeExecutor
         (Example.request Example.otherCmd ["init"] (Some "/ip4/127.0.0.1/tcp/5001"))
         (Example.env "/repo/tcp"))
    = (Some (NewExecutor Example.rootCmd), None)
  ∧ returned
      (ex_makeExecutor
         (Example.request Example.otherCmd ["init"] (Some "/ip4/127.0.0.1/tcp/5001"))
         (Example.env "/repo/tcp"))
    ≠ (None, Some (errors_New
         "api flag specified but command cannot be run on the daemon")).
Proof.
  repeat split; try (vm_compute; reflexivity).
  vm_compute. discriminate.
Qed.

(** [repo fsck] with an address is refused; the parser is the only call. *)
Lemma makeExecutor_client_only_witness :
  ex_makeExecutor
    (Example.request Example.otherCmd ["repo"; "fsck"] (Some "/ip4/127.0.0.1/tcp/5001"))
    (Example.env "/repo/tcp")
  = ([CallNewMultiaddr "/ip4/127.0.0.1/tcp/5001"],
     (None, Some (errors_New
        "api flag specified but command cannot be run on the daemon"))).
Proof.
  apply (makeExecutor_client_only Example.cmdDetailsMap Example.daemonCmd
           Example.ApiOption Example.APIPath Example.NewMultiaddr
           Example.APIAddr Example.IsInitialized Example.Resolve
           Example.DialArgs
           (Example.request Example.otherCmd ["repo"; "fsck"]
              (Some "/ip4/127.0.0.1/tcp/5001"))
           (Example.env "/repo/tcp"));
    vm_compute; reflexivity.
Defined.

(** [log tail] without an address and without a daemon must run on the
    daemon: it is refused after the one discovery call. *)
Lemma makeExecutor_discovery_witness :
  ex_makeExecutor (Example.request Example.otherCmd ["log"; "tail"] None)
                  (Example.env "/repo/none")
  = ([CallAPIAddr "/repo/none"],
     (None, Some (errorString "command must be run on the daemon: [log tail]"))).
Proof.
  apply (proj2 (proj2 (makeExecutor_discovery Example.cmdDetailsMap
           Example.daemonCmd Example.ApiOption Example.APIPath
           Example.NewMultiaddr Example.APIAddr Example.IsInitialized
           Example.Resolve Example.DialArgs
           (Example.request Example.otherCmd ["log"; "tail"] None)
           (Example.env "/repo/none")
           ltac:(vm_compute; reflexivity) ltac:(vm_compute; reflexivity)
           ltac:(vm_compute; reflexivity) ltac:(vm_compute; reflexivity)))).
  right. vm_compute. reflexivity.
Defined.


(** A name with two addresses resolves to the first of them. *)
Lemma resolveAddr_first_candidate_witness :
  returned (ex_resolveAddr Example.ctx Example.dnsAddr)
  = (Some Example.tcpAddr, None).
Proof.
  apply (proj2 (proj2 (proj2 (resolveAddr_first_candidate Example.Resolve
                                Example.ctx Example.dnsAddr)))
           Example.tcpAddr [mkMultiaddr "/ip4/10.0.0.7/tcp/5001"]).
  vm_compute. reflexivity.
Defined.

(** A daemon on a local socket: the client is on host [unix] and its HTTP
    client dials the socket path of the record. *)
Lemma makeExecutor_transport_witness :
  ∃ opts c,
    returned (ex_makeExecutor
                (Example.request Example.otherCmd ["swarm"; "peers"] None)
                (Example.env "/repo/unix"))
    = (Some (NewClient "unix" (opts ++ [ClientWithHTTPClient c])), None)
    ∧ (∀ net addr, DialContext c net addr = mkDial "unix" "/var/run/ipfs.sock")
    ∧ ∀ c', ClientWithHTTPClient c' ∉ opts.
Proof.
  apply (proj1 (proj2 (makeExecutor_transport Example.cmdDetailsMap
           Example.daemonCmd Example.ApiOption Example.APIPath
           Example.NewMultiaddr Example.APIAddr Example.IsInitialized
           Example.Resolve Example.DialArgs
           (Example.request Example.otherCmd ["swarm"; "peers"] None)
           (Example.env "/repo/unix")
           (Some Example.unixAddr) "unix" "/var/run/ipfs.sock"
           ltac:(vm_compute; do 2 right; left)
           ltac:(vm_compute; reflexivity)))).
  reflexivity.
Defined.

(** C9 as stated fails: [help --help] is not left untouched, the word
    [help] is removed. *)
Lemma command_args_rewrite_counterexample :
  command_args ["ipfs"; "help"; "--help"] = Some ["ipfs"; "--help"]
  ∧ command_args ["ipfs"; "help"; "--help"] ≠ Some ["ipfs"; "help"; "--help"].
Proof.
  split; [reflexivity|]. vm_compute. discriminate.
Qed.

(** [help add -r] becomes [add -r --help]. *)
Lemma command_args_rewrite_witness :
  command_args ["/usr/local/bin/ipfs"; "help"; "add"; "-r"]
  = Some ["ipfs"; "add"; "-r"; "--help"].
Proof.
  apply (proj1 (proj2 command_args_rewrite)
           "/usr/local/bin/ipfs" "add" ["-r"]).
  discriminate.
Defined.

(** A malformed address is an error for [swarm peers]. *)
Lemma makeExecutor_malformed_api_witness :
  ex_makeExecutor
    (Example.request Example.otherCmd ["swarm"; "peers"] (Some "localhost:5001"))
    (Example.env "/repo/tcp")
  = ([CallNewMultiaddr "localhost:5001"],
     (None, Some (errorString "invalid multiaddr, must begin with /"))).
Proof.
  apply (proj1 (makeExecutor_malformed_api Example.cmdDetailsMap
           Example.daemonCmd Example.ApiOption Example.APIPath
           Example.NewMultiaddr Example.APIAddr Example.IsInitialized
           Example.Resolve Example.DialArgs
           (Example.request Example.otherCmd ["swarm"; "peers"]
              (Some "localhost:5001"))
           (Example.env "/repo/tcp")
           "localhost:5001" None
           (errorString "invalid multiaddr, must begin with /")
           ltac:(vm_compute; reflexivity) ltac:(vm_compute; reflexivity)));
    vm_compute; reflexivity.
Defined.

(** ** The further properties on the example installation *)

(** Without an address, discovery reads the record of the environment's
    repository. *)
Lemma makeExecutor_discovery_calls_witness :
  "/repo/tcp" = ConfigRoot (Example.env "/repo/tcp")
  ∧ fst (returned (ex_apiAddrOption
                     (Example.request Example.otherCmd ["swarm"; "peers"] None)))
    = None.
Proof.
  apply (makeExecutor_discovery_calls Example.cmdDetailsMap Example.daemonCmd
           Example.ApiOption Example.APIPath Example.NewMultiaddr
           Example.APIAddr Example.IsInitialized Example.Resolve
           Example.DialArgs
           (Example.request Example.otherCmd ["swarm"; "peers"] None)
           (Example.env "/repo/tcp") "/repo/tcp").
  vm_compute. repeat constructor.
Defined.

(** The repository check of [swarm peers] next to a daemon on TCP. *)
Lemma makeExecutor_repo_check_witness :
  "/repo/tcp" = ConfigRoot (Example.env "/repo/tcp")
  ∧ ex_daemonRequested
      (Example.request Example.otherCmd ["swarm"; "peers"] None) = false
  ∧ ∃ ra network h,
      CallDialArgs ra ∈
        calls (ex_makeExecutor
                 (Example.request Example.otherCmd ["swarm"; "peers"] None)
                 (Example.env "/repo/tcp"))
      ∧ Example.DialArgs ra = (network, h, None).
Proof.
  apply (makeExecutor_repo_check Example.cmdDetailsMap Example.daemonCmd
           Example.ApiOption Example.APIPath Example.NewMultiaddr
           Example.APIAddr Example.IsInitialized Example.Resolve
           Example.DialArgs
           (Example.request Example.otherCmd ["swarm"; "peers"] None)
           (Example.env "/repo/tcp") "/repo/tcp").
  vm_compute. repeat constructor.
Defined.

(** An address that cannot be dialled: the error of [manet.DialArgs]. *)
Lemma makeExecutor_dial_error_witness :
  returned (ex_makeExecutor
              (Example.request Example.otherCmd ["swarm"; "peers"]
                 (Some "/ip4/192.0.2.1/sctp/5001"))
              (Example.env "/repo/tcp"))
  = (None, Some (errorString "not a dialable multiaddr"))
  ∧ ∀ p, CallIsInitialized p ∉
           calls (ex_makeExecutor
                    (Example.request Example.otherCmd ["swarm"; "peers"]
                       (Some "/ip4/192.0.2.1/sctp/5001"))
                    (Example.env "/repo/tcp")).
Proof.
  apply (makeExecutor_dial_error Example.cmdDetailsMap Example.daemonCmd
           Example.ApiOption Example.APIPath Example.NewMultiaddr
           Example.APIAddr Example.IsInitialized Example.Resolve
           Example.DialArgs
           (Example.request Example.otherCmd ["swarm"; "peers"]
              (Some "/ip4/192.0.2.1/sctp/5001"))
           (Example.env "/repo/tcp")
           (Some (mkMultiaddr "/ip4/192.0.2.1/sctp/5001")) "" "").
  - vm_compute. repeat constructor.
  - vm_compute. reflexivity.
Defined.

(** A name without an address: "non-resolvable API endpoint", no dial. *)
Lemma makeExecutor_resolve_error_witness :
  returned (ex_makeExecutor
              (Example.request Example.otherCmd ["swarm"; "peers"]
                 (Some "/dns4/nowhere.example/tcp/5001"))
              (Example.env "/repo/tcp"))
  = (None, Some (errorString "non-resolvable API endpoint"))
  ∧ ∀ ra, CallDialArgs ra ∉
            calls (ex_makeExecutor
                     (Example.request Example.otherCmd ["swarm"; "peers"]
                        (Some "/dns4/nowhere.example/tcp/5001"))
                     (Example.env "/repo/tcp")).
Proof.
  apply (makeExecutor_resolve_error Example.cmdDetailsMap Example.daemonCmd
           Example.ApiOption Example.APIPath Example.NewMultiaddr
           Example.APIAddr Example.IsInitialized Example.Resolve
           Example.DialArgs
           (Example.request Example.otherCmd ["swarm"; "peers"]
              (Some "/dns4/nowhere.example/tcp/5001"))
           (Example.env "/repo/tcp")
           (WithTimeout Example.ctx (10 * Second)) Example.deadAddr).
  - vm_compute. repeat constructor.
  - vm_compute. reflexivity.
Defined.

(** With an address given, that address is resolved, not the record's. *)
Lemma makeExecutor_resolves_chosen_address_witness :
  WithTimeout Example.ctx (10 * Second)
  = WithTimeout
      (Context (Example.request Example.otherCmd ["swarm"; "peers"]
                  (Some "/unix/var/run/ipfs.sock")))
      (10 * Second)
  ∧ (fst (returned (ex_apiAddrOption
                      (Example.request Example.otherCmd ["swarm"; "peers"]
                         (Some "/unix/var/run/ipfs.sock"))))
     = Some Example.unixAddr
     ∨ (fst (returned (ex_apiAddrOption
                         (Example.request Example.otherCmd ["swarm"; "peers"]
                            (Some "/unix/var/run/ipfs.sock"))))
        = None
        ∧ fst (Example.APIAddr (ConfigRoot (Example.env "/repo/tcp")))
          = Some Example.unixAddr)).
Proof.
  apply (makeExecutor_resolves_chosen_address Example.cmdDetailsMap
           Example.daemonCmd Example.ApiOption Example.APIPath
           Example.NewMultiaddr Example.APIAddr Example.IsInitialized
           Example.Resolve Example.DialArgs
           (Example.request Example.otherCmd ["swarm"; "peers"]
              (Some "/unix/var/run/ipfs.sock"))
           (Example.env "/repo/tcp")).
  vm_compute. repeat constructor.
Defined.

(** A name with two addresses: the first is the one dialled. *)
Lemma makeExecutor_dials_resolved_witness :
  ∃ c a,
    CallResolve c a ∈
      calls (ex_makeExecutor
               (Example.request Example.otherCmd ["swarm"; "peers"]
                  (Some "/dns4/node.example/tcp/5001"))
               (Example.env "/repo/tcp"))
    ∧ returned (ex_resolveAddr
                  (Context (Example.request Example.otherCmd ["swarm"; "peers"]
                              (Some "/dns4/node.example/tcp/5001"))) a)
      = (Some Example.tcpAddr, None).
Proof.
  apply (makeExecutor_dials_resolved Example.cmdDetailsMap Example.daemonCmd
           Example.ApiOption Example.APIPath Example.NewMultiaddr
           Example.APIAddr Example.IsInitialized Example.Resolve
           Example.DialArgs
           (Example.request Example.otherCmd ["swarm"; "peers"]
              (Some "/dns4/node.example/tcp/5001"))
           (Example.env "/repo/tcp") (Some Example.tcpAddr)).
  vm_compute. repeat constructor.
Defined.

(** [diag cmds clear] has the flags of [diag cmds]. *)
Lemma commandDetails_inherited_witness :
  ex_commandDetails (["diag"; "cmds"] ++ ["clear"])
  = ex_commandDetails ["diag"; "cmds"].
Proof.
  apply (commandDetails_inherited Example.cmdDetailsMap
           ["diag"; "cmds"] ["clear"]).
  - discriminate.
  - intros j Hj. cbn in Hj. assert (j = 2) as -> by lia.
    vm_compute. reflexivity.
Defined.

(** [config edit] has its own entry. *)
Lemma commandDetails_own_entry_witness :
  ex_commandDetails ["config"; "edit"] = Example.details false true true.
Proof.
  apply (commandDetails_own_entry Example.cmdDetailsMap ["config"; "edit"]).
  - discriminate.
  - vm_compute. reflexivity.
Defined.

(** The flags of [log tail] are those of a registered prefix. *)
Lemma commandDetails_from_registry_witness :
  ∃ i, i < length ["log"; "tail"]
       ∧ Example.cmdDetailsMap !! prefixKey ["log"; "tail"] i
         = Some (ex_commandDetails ["log"; "tail"]).
Proof.
  apply (commandDetails_from_registry Example.cmdDetailsMap ["log"; "tail"]).
  - discriminate.
  - vm_compute. discriminate.
Defined.

(** [add help] is not a request for help. *)
Lemma command_args_other_commands_witness :
  command_args ["/usr/bin/ipfs"; "add"; "help"] = Some ["ipfs"; "add"; "help"].
Proof.
  apply (command_args_other_commands "/usr/bin/ipfs" "add" ["help"]);
    discriminate.
Defined.

(** [help --help add] loses the word [help]. *)
Lemma command_args_length_witness :
  length ["ipfs"; "--help"; "add"] = length ["ipfs"; "help"; "--help"; "add"]
  ∨ ∃ p rest, ["ipfs"; "help"; "--help"; "add"] = p :: "help" :: "--help" :: rest
              ∧ ["ipfs"; "--help"; "add"] = "ipfs" :: "--help" :: rest.
Proof.
  apply (command_args_length ["ipfs"; "help"; "--help"; "add"]
           ["ipfs"; "--help"; "add"]).
  vm_compute. reflexivity.
Defined.

Local Notation "'host_getRepoPath'" :=
  (getRepoPath ExampleHost.BestKnownPath).
Local Notation "'host_loadPlugins'" :=
  (loadPlugins "api not running" ExampleHost.NewPluginLoader
     ExampleHost.Initialize ExampleHost.Inject).
Local Notation "'host_writeHeapProfileToFile'" :=
  (writeHeapProfileToFile ExampleHost.Create ExampleHost.WriteHeapProfile).
Local Notation "'host_ConstructNode'" :=
  (ConstructNode ExampleHost.Open ExampleHost.NewNode).
Local Notation "'host_buildEnv'" :=
  (buildEnv ExampleHost.Getenv ExampleHost.GetenvBool "api not running"
     ExampleHost.BestKnownPath ExampleHost.NewPluginLoader
     ExampleHost.Initialize ExampleHost.InjectOk).

(** [--config /repo/tcp] is the repository path. *)
Lemma getRepoPath_config_option_witness :
  host_getRepoPath (ExampleHost.request (Some "/repo/tcp")) ExampleHost.start
  = (ExampleHost.start, ("/repo/tcp", None)).
Proof.
  apply (getRepoPath_config_option ExampleHost.BestKnownPath
           (ExampleHost.request (Some "/repo/tcp")) ExampleHost.start
           "/repo/tcp").
  - vm_compute. reflexivity.
  - discriminate.
Defined.

(** [--config ""] falls back on the best known path. *)
Lemma getRepoPath_best_known_witness :
  host_getRepoPath (ExampleHost.request (Some "")) ExampleHost.start
  = ({| u_Debug := false; events := [EvBestKnownPath] |},
     ("/home/user/.ipfs", None)).
Proof.
  apply (getRepoPath_best_known ExampleHost.BestKnownPath
           (ExampleHost.request (Some "")) ExampleHost.start).
  intros p Hp. vm_compute in Hp. congruence.
Defined.

(** Plugins that load and initialize but cannot be injected. *)
Lemma loadPlugins_failure_witness :
  host_loadPlugins "/repo/tcp" ExampleHost.start
  = ({| u_Debug := false;
        events := [EvNewPluginLoader "/repo/tcp";
                   EvInitialize (Some (mkLoader 1));
                   EvInject (Some (mkLoader 1))] |},
     (None, Some (errorString
        "error initializing plugins: plugin already registered"))).
Proof.
  apply (proj2 (proj2 (loadPlugins_failure "api not running"
           ExampleHost.NewPluginLoader ExampleHost.Initialize
           ExampleHost.Inject "/repo/tcp" ExampleHost.start
           (Some (mkLoader 1)) (errorString "plugin already registered"))));
    vm_compute; reflexivity.
Defined.

(** Plugins that load, initialize and are injected. *)
Lemma loadPlugins_success_witness :
  loadPlugins "api not running" ExampleHost.NewPluginLoader
    ExampleHost.Initialize ExampleHost.InjectOk "/repo/tcp" ExampleHost.start
  = ({| u_Debug := false;
        events := [EvNewPluginLoader "/repo/tcp";
                   EvInitialize (Some (mkLoader 1));
                   EvInject (Some (mkLoader 1))] |},
     (Some (mkLoader 1), None)).
Proof.
  apply (proj2 (loadPlugins_success "api not running"
           ExampleHost.NewPluginLoader ExampleHost.Initialize
           ExampleHost.InjectOk "/repo/tcp" ExampleHost.start)).
  vm_compute. reflexivity.
Defined.

(** A heap profile that cannot be written: the file is closed all the
    same. *)
Lemma writeHeapProfileToFile_closes_witness :
  host_writeHeapProfileToFile ExampleHost.start
  = ({| u_Debug := false;
        events := [EvCreate "ipfs.memprof";
                   EvWriteHeapProfile (Some (mkFile 7));
                   EvClose (Some (mkFile 7))] |},
     Some (errorString "write ipfs.memprof: no space left on device")).
Proof.
  apply (proj2 (writeHeapProfileToFile_closes ExampleHost.Create
           ExampleHost.WriteHeapProfile ExampleHost.start (Some (mkFile 7)))).
  vm_compute. reflexivity.
Defined.

(** A locked repository: no node is built. *)
Lemma ConstructNode_steps_witness :
  host_ConstructNode
    {| env_base := {| ConfigRoot := "/repo/locked" |};
       Plugins := None;
       captured_req := Some (ExampleHost.request None);
       captured_ctx := Example.ctx |}
    ExampleHost.start
  = ({| u_Debug := false; events := [EvOpen "/repo/locked"] |},
     (None, Some (errorString "lock /repo/locked/repo.lock: already locked"))).
Proof.
  apply (proj1 (proj2 (ConstructNode_steps ExampleHost.Open ExampleHost.NewNode
           {| env_base := {| ConfigRoot := "/repo/locked" |};
              Plugins := None;
              captured_req := Some (ExampleHost.request None);
              captured_ctx := Example.ctx |}
           ExampleHost.start)) None).
  - discriminate.
  - vm_compute. reflexivity.
Defined.

(** The environment built for [--config /repo/tcp]. *)
Lemma buildEnv_environment_witness :
  snd (host_getRepoPath (ExampleHost.request (Some "/repo/tcp"))
         ExampleHost.start)
  = ("/repo/tcp", None)
  ∧ Some (mkLoader 1) = fst (ExampleHost.NewPluginLoader "/repo/tcp")
  ∧ Some (ExampleHost.request (Some "/repo/tcp"))
    = Some (ExampleHost.request (Some "/repo/tcp"))
  ∧ Example.ctx = Example.ctx.
Proof.
  apply (buildEnv_environment ExampleHost.Getenv ExampleHost.GetenvBool
           "api not running" ExampleHost.BestKnownPath
           ExampleHost.NewPluginLoader ExampleHost.Initialize
           ExampleHost.InjectOk Example.ctx
           (ExampleHost.request (Some "/repo/tcp")) ExampleHost.start
           {| env_base := {| ConfigRoot := "/repo/tcp" |};
              Plugins := Some (mkLoader 1);
              captured_req := Some (ExampleHost.request (Some "/repo/tcp"));
              captured_ctx := Example.ctx |}).
  vm_compute. reflexivity.
Defined.

(** Plugins that cannot be loaded: [buildEnv] returns the wrapped error. *)
Lemma buildEnv_failure_witness :
  snd (host_buildEnv Example.ctx (ExampleHost.request (Some "/repo/noplugins"))
         ExampleHost.start)
  = (None, Some (errorString
       "error loading plugins: open /repo/noplugins/plugins: permission denied")).
Proof.
  apply (proj2 (buildEnv_failure ExampleHost.Getenv ExampleHost.GetenvBool
           "api not running" ExampleHost.BestKnownPath
           ExampleHost.NewPluginLoader ExampleHost.Initialize
           ExampleHost.InjectOk Example.ctx
           (ExampleHost.request (Some "/repo/noplugins")) ExampleHost.start
           (errorString
              "error loading plugins: open /repo/noplugins/plugins: permission denied")));
    vm_compute; reflexivity.
Defined.

(** [daemon --api ...] runs locally; only the option is parsed. *)
Lemma makeExecutor_never_remote_witness :
  (returned (ex_makeExecutor
               (Example.request Example.daemonCmd ["daemon"]
                  (Some "/ip4/127.0.0.1/tcp/5001"))
               (Example.env "/repo/tcp"))
   = (Some (NewExecutor
              (Root (Example.request Example.daemonCmd ["daemon"]
                       (Some "/ip4/127.0.0.1/tcp/5001")))), None)
   ∨ ∃ e, returned (ex_makeExecutor
                      (Example.request Example.daemonCmd ["daemon"]
                         (Some "/ip4/127.0.0.1/tcp/5001"))
                      (Example.env "/repo/tcp"))
          = (None, Some e))
  ∧ ∀ c, c ∈ calls (ex_makeExecutor
                      (Example.request Example.daemonCmd ["daemon"]
                         (Some "/ip4/127.0.0.1/tcp/5001"))
                      (Example.env "/repo/tcp")) →
         ∃ s, c = CallNewMultiaddr s.
Proof.
  apply (makeExecutor_never_remote Example.cmdDetailsMap Example.daemonCmd
           Example.ApiOption Example.APIPath Example.NewMultiaddr
           Example.APIAddr Example.IsInitialized Example.Resolve
           Example.DialArgs
           (Example.request Example.daemonCmd ["daemon"]
              (Some "/ip4/127.0.0.1/tcp/5001"))
           (Example.env "/repo/tcp")).
  vm_compute. reflexivity.
Defined.


(** With [IPFS_LOGGING=debug] a raised [u.Debug] stays raised. *)
Lemma checkDebug_effect_witness :
  u_Debug (fst (checkDebug ExampleHost.Getenv ExampleHost.GetenvBool
                  (ExampleHost.request None)
                  {| u_Debug := true; events := [] |}))
  = true.
Proof.
  apply (proj1 (checkDebug_effect ExampleHost.Getenv ExampleHost.GetenvBool
                  (ExampleHost.request None)
                  {| u_Debug := true; events := [] |})).
  reflexivity.
Defined.
